(** * ApologyGenie: the generation orchestrator of [app.py]

    A shallow embedding of the Streamlit handler of [src/app.py]:
    the memoised primary generator [generate_with_gemini], the fallback
    [generate_with_gpt2], the feedback callback [handle_feedback] and the
    body of [main] that runs when the "Generate" button is pressed.

    Session state ([st.session_state]) and the [lru_cache] table are
    threaded explicitly.  Exceptions are values of a result type.  The two
    generative models are external: they are a parameter of the development
    (a record of reply functions), and every call made to them is written
    to a log so that "the backend was (not) invoked" is a statement about
    that log.

    Two facts about what the script runs on shape its behaviour and are
    part of the model: the module [google.generativeai] has no name
    [APIError] ([genai_APIError]), and Streamlit executes the script
    anew on every interaction, which gives every run a new memo table
    ([script_start]). *)

From Stdlib Require Import String Ascii List Bool Arith Lia QArith.
Import ListNotations.
Open Scope string_scope.
Open Scope nat_scope.

(** ** Python string methods used by the program

    Strings are byte strings; the methods below are the ASCII fragment of
    Python's [str] methods (bytes above 127 are left alone). *)

Module PyStr.

(** [c.isspace()] on ASCII: TAB..CR, FS..US and the blank. *)
Definition isspace (c : ascii) : bool :=
  let n := nat_of_ascii c in
  ((9 <=? n) && (n <=? 13)) || ((28 <=? n) && (n <=? 31)) || (n =? 32).

Fixpoint lstrip (s : string) : string :=
  match s with
  | EmptyString => EmptyString
  | String c s' => if isspace c then lstrip s' else s
  end.

Fixpoint rstrip (s : string) : string :=
  match s with
  | EmptyString => EmptyString
  | String c s' =>
      match rstrip s' with
      | EmptyString => if isspace c then EmptyString else String c EmptyString
      | r => String c r
      end
  end.

(** [s.strip()] *)
Definition strip (s : string) : string := rstrip (lstrip s).

Definition lower_ascii (c : ascii) : ascii :=
  let n := nat_of_ascii c in
  if (65 <=? n) && (n <=? 90) then ascii_of_nat (n + 32) else c.

(** [s.lower()] *)
Fixpoint lower (s : string) : string :=
  match s with
  | EmptyString => EmptyString
  | String c s' => String (lower_ascii c) (lower s')
  end.

(** [sub in s] *)
Fixpoint contains (sub s : string) : bool :=
  String.prefix sub s ||
  match s with
  | EmptyString => false
  | String _ s' => contains sub s'
  end.

(** [s.replace(old, "")] for a non-empty [old]: every occurrence of
    [old], scanning from the left without overlap, is dropped.  [skip]
    counts the characters of the current occurrence still to drop. *)
Fixpoint remove_from (old s : string) (skip : nat) : string :=
  match s with
  | EmptyString => EmptyString
  | String c s' =>
      match skip with
      | S k => remove_from old s' k
      | O =>
          if String.prefix old s
          then remove_from old s' (String.length old - 1)
          else String c (remove_from old s' 0)
      end
  end.

Definition remove (old s : string) : string := remove_from old s 0.

(** Truth value of a string in a condition: [if s:]. *)
Definition truthy (s : string) : bool := negb (String.eqb s "").

End PyStr.

(** ** Constants *)

Definition CACHE_SIZE : nat := 100.
Definition MAX_RETRIES : nat := 2.

(** ** Data *)

(** The options of the tone select box, and the strings it returns. *)
Inductive Tone := formal | friendly | funny | sincere.

Definition tone_label (t : Tone) : string :=
  match t with
  | formal => "formal"
  | friendly => "friendly"
  | funny => "funny"
  | sincere => "sincere"
  end.

(** One dictionary of [st.session_state.history]; a field per key. *)
Record Entry := mkEntry {
  e_id : string;
  e_timestamp : string;
  e_situation : string;
  e_tone : string;
  e_apology : string;
  e_model : string;
  e_feedback : option bool
}.

Definition set_feedback (entry : Entry) (v : option bool) : Entry :=
  {| e_id := e_id entry;
     e_timestamp := e_timestamp entry;
     e_situation := e_situation entry;
     e_tone := e_tone entry;
     e_apology := e_apology entry;
     e_model := e_model entry;
     e_feedback := v |}.

(** The [generation_config] dictionary given to [generate_content].  The
    temperature literals 0.7 and 0.3 are kept as the decimal fractions
    they denote. *)
Record GenerationConfig := mkConfig {
  temperature : Q;
  max_output_tokens : nat
}.

(** Exceptions, with their text: an error reported by the generative
    API, or anything else.  Which of them the [except] clause of
    [generate_with_gemini] would catch is the business of
    [genai_APIError] below. *)
Inductive Exn :=
| APIError (msg : string)
| OtherException (msg : string).

(** [str(e)] *)
Definition str (e : Exn) : string :=
  match e with
  | APIError msg => msg
  | OtherException msg => msg
  end.

Inductive Result :=
| Return (text : string)
| Raise (e : Exn).

(** A call made to one of the two models, with its arguments. *)
Inductive Call :=
| PrimaryCall (prompt : string) (generation_config : GenerationConfig)
| SecondaryCall (prompt : string) (max_length num_return_sequences : nat).

Definition is_primary (c : Call) : bool :=
  match c with PrimaryCall _ _ => true | SecondaryCall _ _ _ => false end.

Definition is_secondary (c : Call) : bool :=
  match c with PrimaryCall _ _ => false | SecondaryCall _ _ _ => true end.

(** The two external models.  A reply may depend on every call made so
    far, so a model can answer the same prompt differently each time.
    [generate_content] yields [response.text] or raises; the pipeline
    yields [response[0]['generated_text']] or raises. *)
Record Backends := mkBackends {
  generate_content : list Call -> string -> GenerationConfig -> Result;
  pipeline : list Call -> string -> nat -> nat -> Result
}.

(** [st.session_state.models]: whether each slot holds a model object
    ([None] and a missing model are false in a condition). *)
Record Models := mkModels {
  gemini : bool;
  gpt2 : bool
}.

(** The memo table of [lru_cache]: most recently used first. *)
Definition Key : Type := string * string.
Definition Cache : Type := list (Key * string).

Record State := mkState {
  models : Models;
  gemini_over_limit : bool;
  history : list Entry;
  cache : Cache;
  calls : list Call
}.

Definition set_over_limit (st : State) : State :=
  {| models := models st; gemini_over_limit := true; history := history st;
     cache := cache st; calls := calls st |}.

Definition set_history (st : State) (h : list Entry) : State :=
  {| models := models st; gemini_over_limit := gemini_over_limit st;
     history := h; cache := cache st; calls := calls st |}.

Definition set_cache (st : State) (c : Cache) : State :=
  {| models := models st; gemini_over_limit := gemini_over_limit st;
     history := history st; cache := c; calls := calls st |}.

Definition log_call (st : State) (c : Call) : State :=
  {| models := models st; gemini_over_limit := gemini_over_limit st;
     history := history st; cache := cache st; calls := calls st ++ [c] |}.

(** ** [functools.lru_cache(maxsize=CACHE_SIZE)] *)

Definition key_eqb (a b : Key) : bool :=
  (fst a =? fst b)%string && (snd a =? snd b)%string.

Fixpoint cache_get (k : Key) (c : Cache) : option string :=
  match c with
  | [] => None
  | (k', v) :: c' => if key_eqb k' k then Some v else cache_get k c'
  end.

Fixpoint cache_remove (k : Key) (c : Cache) : Cache :=
  match c with
  | [] => []
  | (k', v) :: c' => if key_eqb k' k then c' else (k', v) :: cache_remove k c'
  end.

(** A hit moves the entry to the most recently used end. *)
Definition cache_touch (k : Key) (v : string) (c : Cache) : Cache :=
  (k, v) :: cache_remove k c.

(** A miss stores the new result, dropping the oldest entry of a full table. *)
Definition cache_put (k : Key) (v : string) (c : Cache) : Cache :=
  (k, v) :: (if CACHE_SIZE <=? length c then removelast c else c).

(** ** [handle_feedback] *)

Fixpoint handle_feedback_in (h : list Entry) (entry_id : string)
         (is_positive : bool) : list Entry :=
  match h with
  | [] => []
  | entry :: rest =>
      if (e_id entry =? entry_id)%string
      then set_feedback entry (Some is_positive) :: rest
      else entry :: handle_feedback_in rest entry_id is_positive
  end.

Definition handle_feedback (st : State) (entry_id : string)
           (is_positive : bool) : State :=
  set_history st (handle_feedback_in (history st) entry_id is_positive).

(** ** The generators *)

Definition generation_config (tone : string) : GenerationConfig :=
  {| temperature := if (tone =? "funny")%string then 7 # 10 else 3 # 10;
     max_output_tokens := 100 |}.

Definition gemini_prompt (situation tone : string) : string :=
  "Write a " ++ tone ++ " apology note for: " ++ situation
  ++ ". Keep it under 3 sentences.".

Definition gpt2_prompt (situation tone : string) : string :=
  "Write a " ++ tone ++ " apology for " ++ situation ++ ":".

Definition gpt2_failure : string :=
  "Apology generation failed. Please try again.".

(** The name [genai.APIError] in the [except] clause of
    [generate_with_gemini].  The module [google.generativeai] defines no
    [APIError]: the name is looked up each time the [try] body raises, and
    the lookup itself raises [AttributeError].  [Some] would hold the
    class, as its instance test. *)
Definition genai_APIError : option (Exn -> bool) := None.

Definition attribute_error : Exn :=
  OtherException "module 'google.generativeai' has no attribute 'APIError'".

Section Orchestrator.

Variable B : Backends.

(** The [for attempt in range(MAX_RETRIES)] loop: [n] iterations are
    left and this one is number [attempt].  When the call raises, the
    [except] clause first evaluates [genai.APIError]; only if that yields
    a class are the lines under it (quota test, flag, retry) reached. *)
Fixpoint gemini_loop (n attempt : nat) (st : State)
         (prompt tone : string) : State * Result :=
  match n with
  | O => (st, Return "")
  | S n' =>
      let cfg := generation_config tone in
      let st1 := log_call st (PrimaryCall prompt cfg) in
      match generate_content B (calls st) prompt cfg with
      | Return text => (st1, Return text)
      | Raise e =>
          match genai_APIError with
          | None => (st1, Raise attribute_error)
          | Some isinstance =>
              if isinstance e
              then if PyStr.contains "quota" (PyStr.lower (str e))
                   then (set_over_limit st1, Raise e)
                   else if attempt =? MAX_RETRIES - 1
                        then (st1, Raise e)
                        else gemini_loop n' (S attempt) st1 prompt tone
              else (st1, Raise e)
          end
      end
  end.

(** The undecorated body of [generate_with_gemini].  With no model in
    the slot, [model.generate_content] is an attribute error on [None],
    raised inside the [try], so the [except] clause is evaluated for it
    too. *)
Definition generate_with_gemini_body (st : State)
           (situation tone : string) : State * Result :=
  if gemini (models st)
  then gemini_loop MAX_RETRIES 0 st (gemini_prompt situation tone) tone
  else match genai_APIError with
       | None => (st, Raise attribute_error)
       | Some _ =>
           (st, Raise (OtherException
                  "'NoneType' object has no attribute 'generate_content'"))
       end.

(** [generate_with_gemini] as decorated: a hit answers from the table, a
    miss runs the body and stores what it returns; an exception stores
    nothing. *)
Definition generate_with_gemini (st : State)
           (situation tone : string) : State * Result :=
  let k := (situation, tone) in
  match cache_get k (cache st) with
  | Some v => (set_cache st (cache_touch k v (cache st)), Return v)
  | None =>
      match generate_with_gemini_body st situation tone with
      | (st1, Return v) => (set_cache st1 (cache_put k v (cache st1)), Return v)
      | (st1, Raise e) => (st1, Raise e)
      end
  end.

(** [generate_with_gpt2]: never raises; an exception of the pipeline
    becomes the fixed failure sentence. *)
Definition generate_with_gpt2 (st : State)
           (situation tone : string) : State * string :=
  let prompt := gpt2_prompt situation tone in
  let st1 := log_call st (SecondaryCall prompt 100 1) in
  match pipeline B (calls st) prompt 100 1 with
  | Return generated_text =>
      (st1, PyStr.strip (PyStr.remove prompt generated_text))
  | Raise _ => (st1, gpt2_failure)
  end.

(** ** [main], when the "Generate" button is pressed *)

(** The two readings of [datetime.now()], formatted. *)
Record Clock := mkClock {
  now_id : string;
  now_timestamp : string
}.

(** What the page shows for the request. *)
Inductive Outcome :=
| NoSituation
| Shown (model_used apology : string)
| Failed.

(** Lines 109-117: the primary branch of [main]. *)
Definition try_gemini (st : State) (situation : string) (tone : Tone)
  : State * string * string :=
  if negb (gemini_over_limit st) && gemini (models st)
  then
    match generate_with_gemini st (PyStr.lower (PyStr.strip situation))
                               (PyStr.lower (tone_label tone)) with
    | (st1, Return apology) => (st1, apology, "Gemini")
    | (st1, Raise e) =>
        (if PyStr.contains "quota" (PyStr.lower (str e))
         then set_over_limit st1 else st1, "", "")
    end
  else (st, "", "").

(** Lines 119-122: the fallback branch of [main]. *)
Definition try_gpt2 (st : State) (situation : string) (tone : Tone)
           (apology model_used : string) : State * string * string :=
  if negb (PyStr.truthy apology) && gpt2 (models st)
  then
    let '(st1, apology') :=
      generate_with_gpt2 st (PyStr.lower (PyStr.strip situation))
                         (PyStr.lower (tone_label tone)) in
    (st1, apology', "GPT-2")
  else (st, apology, model_used).

Definition new_entry (situation : string) (tone : Tone) (now : Clock)
           (apology model_used : string) : Entry :=
  {| e_id := now_id now;
     e_timestamp := now_timestamp now;
     e_situation := situation;
     e_tone := tone_label tone;
     e_apology := apology;
     e_model := model_used;
     e_feedback := None |}.

Definition submit (st : State) (situation : string) (tone : Tone)
           (now : Clock) : State * Outcome :=
  if negb (PyStr.truthy (PyStr.strip situation))
  then (st, NoSituation)
  else
    let '(st1, apology, model_used) := try_gemini st situation tone in
    let '(st2, apology, model_used) :=
      try_gpt2 st1 situation tone apology model_used in
    if PyStr.truthy apology
    then (set_history st2
            (history st2 ++ [new_entry situation tone now apology model_used]),
          Shown model_used apology)
    else (st2, Failed).

(** ** A session: button presses and feedback clicks in order *)

Inductive Action :=
| Generate (situation : string) (tone : Tone) (now : Clock)
| Feedback (entry_id : string) (is_positive : bool).

(** Streamlit executes the script from its first line on every
    interaction.  The [def] under [@lru_cache] is executed again each
    time, so every run starts with a new, empty memo table;
    [st.session_state] (models, flag, history) is what a session keeps. *)
Definition script_start (st : State) : State := set_cache st [].

(** A button press runs the script with the button set; a feedback click
    runs the callback and then the script. *)
Definition step (st : State) (a : Action) : State :=
  match a with
  | Generate situation tone now =>
      fst (submit (script_start st) situation tone now)
  | Feedback entry_id is_positive =>
      handle_feedback (script_start st) entry_id is_positive
  end.

Definition run (st : State) (l : list Action) : State :=
  fold_left step l st.

End Orchestrator.

(** [configure_models]: the GPT-2 pipeline is always built; the Gemini
    slot keeps [None] when configuring the API raises. *)
Definition configure_models (gemini_configured : bool) : Models :=
  {| gemini := gemini_configured; gpt2 := true |}.

(** Session state as [main] initialises it, with an empty memo table. *)
Definition initial_state (gemini_configured : bool) : State :=
  {| models := configure_models gemini_configured;
     gemini_over_limit := false;
     history := [];
     cache := [];
     calls := [] |}.

(** ** Observations used in the statements *)

(** Two entries that agree on every field but the feedback. *)
Definition same_but_feedback (e e' : Entry) : Prop :=
  e_id e = e_id e' /\ e_timestamp e = e_timestamp e' /\
  e_situation e = e_situation e' /\ e_tone e = e_tone e' /\
  e_apology e = e_apology e' /\ e_model e = e_model e'.

(** The calls logged between an earlier state and a later one. *)
Definition calls_since (st st' : State) : list Call :=
  skipn (length (calls st)) (calls st').

Definition primary_calls (l : list Call) : nat :=
  length (filter is_primary l).

Definition secondary_calls (l : list Call) : nat :=
  length (filter is_secondary l).

(** The key under which [main] calls the memoised generator. *)
Definition request_key (situation : string) (tone : Tone) : Key :=
  (PyStr.lower (PyStr.strip situation), PyStr.lower (tone_label tone)).

(** The call [main] makes to each model for a request. *)
Definition primary_call (situation : string) (tone : Tone) : Call :=
  PrimaryCall (gemini_prompt (fst (request_key situation tone))
                             (snd (request_key situation tone)))
              (generation_config (snd (request_key situation tone))).

Definition secondary_call (situation : string) (tone : Tone) : Call :=
  SecondaryCall (gpt2_prompt (fst (request_key situation tone))
                             (snd (request_key situation tone))) 100 1.

(** An exception whose text mentions the quota, in any letter case. *)
Definition is_quota (e : Exn) : bool :=
  PyStr.contains "quota" (PyStr.lower (str e)).

(** Every character of the string is white space. *)
Fixpoint all_space (s : string) : bool :=
  match s with
  | EmptyString => true
  | String c s' => PyStr.isspace c && all_space s'
  end.

(** Every character of the string is an ASCII character. *)
Fixpoint is_ascii (s : string) : bool :=
  match s with
  | EmptyString => true
  | String c s' => (nat_of_ascii c <? 128) && is_ascii s'
  end.

(** The number of button presses among the actions of a session. *)
Definition requests (l : list Action) : nat :=
  length (filter (fun a => match a with Generate _ _ _ => true
                                   | Feedback _ _ => false end) l).

(** ** The history section of the page (lines 164-178 of [main]) *)

Definition upper_ascii (c : ascii) : ascii :=
  let n := nat_of_ascii c in
  if (97 <=? n) && (n <=? 122) then ascii_of_nat (n - 32) else c.

(** [s.capitalize()] on ASCII: first character upper-cased, the rest
    lower-cased. *)
Definition capitalize (s : string) : string :=
  match s with
  | EmptyString => EmptyString
  | String c s' => String (upper_ascii c) (PyStr.lower s')
  end.

(** One expander of the history: its label, the tone caption, the text
    written in it and the feedback line. *)
Record Expander := mkExpander {
  label : string;
  tone_caption : string;
  written : string;
  feedback_line : string
}.

Definition render_entry (entry : Entry) : Expander :=
  {| label := e_timestamp entry ++ " - " ++ e_situation entry
              ++ " (" ++ e_model entry ++ ")";
     tone_caption := "Tone: " ++ capitalize (e_tone entry);
     written := e_apology entry;
     feedback_line :=
       match e_feedback entry with
       | Some true => "**Your Feedback:** 👍"
       | Some false => "**Your Feedback:** 👎"
       | None => "No feedback submitted yet"
       end |}.

(** Nothing is drawn for an empty history; otherwise one expander per
    entry, over [reversed(history)]. *)
Definition history_section (h : list Entry) : option (list Expander) :=
  match h with
  | [] => None
  | _ => Some (map render_entry (rev h))
  end.

(** The memo table respects its bound and holds each key once. *)
Definition cache_ok (c : Cache) : Prop :=
  length c <= CACHE_SIZE /\ NoDup (map fst c).

(** ** Sample collaborators for the concrete runs *)

(** Models that give the same reply to every call. *)
Definition constant_backends (primary secondary : Result) : Backends :=
  {| generate_content := fun _ _ _ => primary;
     pipeline := fun _ _ _ _ => secondary |}.

Definition quota_error : Exn :=
  APIError "429 Resource has been exhausted (e.g. check quota).".

Definition transient_error : Exn := APIError "503 Service Unavailable".

Definition noon : Clock :=
  {| now_id := "20240101120000000000"; now_timestamp := "2024-01-01 12:00" |}.

Definition one_past_noon : Clock :=
  {| now_id := "20240101120100000000"; now_timestamp := "2024-01-01 12:01" |}.

(** * Properties *)

Open Scope list_scope.

Arguments MAX_RETRIES : simpl never.
Arguments CACHE_SIZE : simpl never.

(** ** Sanity checks of the string methods *)

Example strip_lower_example :
  PyStr.lower (PyStr.strip "  I Missed your Birthday ") = "i missed your birthday".
Proof. reflexivity. Qed.

Example contains_example :
  PyStr.contains "quota" (PyStr.lower "429 Quota exceeded") = true /\
  PyStr.contains "quota" (PyStr.lower "503 unavailable") = false.
Proof. split; reflexivity. Qed.

Example remove_example :
  PyStr.strip (PyStr.remove "ab" "abxaby ab") = "xy".
Proof. reflexivity. Qed.

Example tone_label_lower (t : Tone) : PyStr.lower (tone_label t) = tone_label t.
Proof. destruct t; reflexivity. Qed.

(** ** The history and the feedback callback *)

Lemma same_but_feedback_refl e : same_but_feedback e e.
Proof. repeat split. Qed.

Lemma same_but_feedback_set e v : same_but_feedback e (set_feedback e v).
Proof. repeat split. Qed.

Lemma Forall2_same_refl h : Forall2 same_but_feedback h h.
Proof. induction h; constructor; auto using same_but_feedback_refl. Qed.

Lemma set_history_same st : set_history st (history st) = st.
Proof. destruct st; reflexivity. Qed.

Lemma handle_feedback_in_idem h i b :
  handle_feedback_in (handle_feedback_in h i b) i b = handle_feedback_in h i b.
Proof.
  induction h as [|e rest IH]; simpl; [reflexivity|].
  destruct (String.eqb (e_id e) i) eqn:E; simpl; rewrite E.
  - reflexivity.
  - now rewrite IH.
Qed.

Lemma handle_feedback_in_absent h i b :
  (forall e, In e h -> e_id e <> i) -> handle_feedback_in h i b = h.
Proof.
  induction h as [|e rest IH]; simpl; intros A; [reflexivity|].
  destruct (String.eqb_spec (e_id e) i) as [E|E].
  - exfalso. apply (A e); auto.
  - rewrite IH; auto.
Qed.

Lemma handle_feedback_in_frame h i b :
  Forall2 same_but_feedback h (handle_feedback_in h i b).
Proof.
  induction h as [|e rest IH]; simpl; [constructor|].
  destruct (String.eqb (e_id e) i).
  - constructor; [apply same_but_feedback_set | apply Forall2_same_refl].
  - constructor; [apply same_but_feedback_refl | exact IH].
Qed.

Lemma handle_feedback_in_length h i b :
  length (handle_feedback_in h i b) = length h.
Proof.
  eapply eq_sym, Forall2_length, handle_feedback_in_frame.
Qed.

(** ** The retry loop *)

Section LoopFacts.

Variable B : Backends.

(** With no [genai.APIError] to catch, the first iteration decides: the
    text is returned, or the failed lookup of the name is what is
    raised.  No second iteration is ever entered. *)
Lemma gemini_loop_S n attempt st prompt tone :
  gemini_loop B (S n) attempt st prompt tone =
  (log_call st (PrimaryCall prompt (generation_config tone)),
   match generate_content B (calls st) prompt (generation_config tone) with
   | Return text => Return text
   | Raise _ => Raise attribute_error
   end).
Proof.
  simpl.
  destruct (generate_content B (calls st) prompt (generation_config tone));
    reflexivity.
Qed.

Lemma gemini_loop_frame n attempt st prompt tone :
  models (fst (gemini_loop B n attempt st prompt tone)) = models st /\
  history (fst (gemini_loop B n attempt st prompt tone)) = history st /\
  cache (fst (gemini_loop B n attempt st prompt tone)) = cache st /\
  gemini_over_limit (fst (gemini_loop B n attempt st prompt tone))
  = gemini_over_limit st.
Proof.
  destruct n as [|n]; [simpl; tauto|].
  rewrite gemini_loop_S. simpl. tauto.
Qed.

(** The loop logs at most [n] calls, all of them to the primary model
    with the same prompt and configuration. *)
Lemma gemini_loop_calls n attempt st prompt tone :
  exists k,
    k <= n /\ k <= 1 /\
    calls (fst (gemini_loop B n attempt st prompt tone)) =
    calls st ++ repeat (PrimaryCall prompt (generation_config tone)) k.
Proof.
  destruct n as [|n].
  - exists 0. simpl. rewrite app_nil_r. repeat split; lia.
  - exists 1. rewrite gemini_loop_S. simpl. repeat split; lia.
Qed.

(** A text the loop returns is the reply to its call. *)
Lemma gemini_loop_return n attempt st prompt tone v :
  0 < n ->
  snd (gemini_loop B n attempt st prompt tone) = Return v ->
  calls (fst (gemini_loop B n attempt st prompt tone))
  = calls st ++ [PrimaryCall prompt (generation_config tone)] /\
  generate_content B (calls st) prompt (generation_config tone) = Return v.
Proof.
  destruct n as [|n]; [lia|]. intros _. rewrite gemini_loop_S. simpl.
  destruct (generate_content B (calls st) prompt (generation_config tone));
    [|discriminate].
  intros H. split; [reflexivity|exact H].
Qed.

(** What the loop raises is the failed lookup, after its one call, to
    which the model replied by raising. *)
Lemma gemini_loop_raise n attempt st prompt tone e :
  snd (gemini_loop B n attempt st prompt tone) = Raise e ->
  e = attribute_error /\
  calls (fst (gemini_loop B n attempt st prompt tone))
  = calls st ++ [PrimaryCall prompt (generation_config tone)] /\
  exists e', generate_content B (calls st) prompt (generation_config tone)
             = Raise e'.
Proof.
  destruct n as [|n]; [discriminate|]. rewrite gemini_loop_S. simpl.
  destruct (generate_content B (calls st) prompt (generation_config tone))
    as [text|e']; [discriminate|].
  intros H. injection H as <-. eauto.
Qed.

End LoopFacts.

(** ** The memo table *)

Lemma key_eqb_eq a b : key_eqb a b = true <-> a = b.
Proof.
  destruct a as [a1 a2], b as [b1 b2]. unfold key_eqb. simpl.
  rewrite andb_true_iff, !String.eqb_eq. split.
  - intros [-> ->]. reflexivity.
  - intros E. inversion E. auto.
Qed.

Lemma key_eqb_refl a : key_eqb a a = true.
Proof. now apply key_eqb_eq. Qed.

Lemma cache_get_removelast k v c :
  cache_get k (removelast c) = Some v -> cache_get k c = Some v.
Proof.
  induction c as [|[k' v'] c IH]; simpl; [discriminate|].
  destruct c as [|p c]; [discriminate|].
  change (cache_get k ((k', v') :: removelast (p :: c)) = Some v ->
          (if key_eqb k' k then Some v' else cache_get k (p :: c)) = Some v).
  simpl cache_get at 1.
  destruct (key_eqb k' k); auto.
Qed.

Lemma cache_get_remove_other k k' c :
  key_eqb k k' = false ->
  cache_get k' (cache_remove k c) = cache_get k' c.
Proof.
  intros N. induction c as [|[k0 v0] c IH]; simpl; [reflexivity|].
  destruct (key_eqb k0 k) eqn:E.
  - apply key_eqb_eq in E. subst k0. now rewrite N.
  - simpl. now rewrite IH.
Qed.

(** Moving an entry to the front changes no lookup. *)
Lemma cache_get_touch k v c k' :
  cache_get k c = Some v ->
  cache_get k' (cache_touch k v c) = cache_get k' c.
Proof.
  intros H. unfold cache_touch. simpl.
  destruct (key_eqb k k') eqn:E.
  - apply key_eqb_eq in E. now subst k'.
  - now apply cache_get_remove_other.
Qed.

(** After a store, a lookup finds the new result or an older entry. *)
Lemma cache_get_put k v c k' v' :
  cache_get k' (cache_put k v c) = Some v' ->
  (k' = k /\ v' = v) \/ cache_get k' c = Some v'.
Proof.
  unfold cache_put. cbn [cache_get].
  destruct (key_eqb k k') eqn:E.
  - apply key_eqb_eq in E. intros H. left. split; congruence.
  - destruct (CACHE_SIZE <=? length c); intros H; right;
      [now apply cache_get_removelast | exact H].
Qed.

Lemma cache_get_put_same k v c : cache_get k (cache_put k v c) = Some v.
Proof. unfold cache_put. simpl. now rewrite key_eqb_refl. Qed.

(** ** The generators and [main] *)

Lemma calls_since_app st st' new :
  calls st' = calls st ++ new -> calls_since st st' = new.
Proof.
  intros E. unfold calls_since. rewrite E.
  rewrite skipn_app, skipn_all, Nat.sub_diag. reflexivity.
Qed.

Lemma primary_calls_repeat c1 c2 k j :
  is_primary c1 = true -> is_primary c2 = false ->
  primary_calls (repeat c1 k ++ repeat c2 j) = k.
Proof.
  intros P1 P2. unfold primary_calls. rewrite filter_app, length_app.
  induction k as [|k IH]; simpl.
  - induction j; simpl; [reflexivity|]. now rewrite P2.
  - rewrite P1. simpl. now rewrite IH.
Qed.

Section MainFacts.

Variable B : Backends.

Lemma generate_with_gemini_frame st situation tone :
  models (fst (generate_with_gemini B st situation tone)) = models st /\
  history (fst (generate_with_gemini B st situation tone)) = history st /\
  gemini_over_limit (fst (generate_with_gemini B st situation tone))
  = gemini_over_limit st.
Proof.
  unfold generate_with_gemini, generate_with_gemini_body.
  destruct (cache_get _ _); [simpl; tauto|].
  destruct (gemini (models st)); [|simpl; tauto].
  pose proof (gemini_loop_frame B MAX_RETRIES 0 st
                (gemini_prompt situation tone) tone) as F.
  destruct (gemini_loop B MAX_RETRIES 0 st _ tone) as [st1 [v|e]];
    simpl in *; tauto.
Qed.

Lemma generate_with_gemini_calls st situation tone :
  exists k,
    k <= MAX_RETRIES /\ k <= 1 /\
    calls (fst (generate_with_gemini B st situation tone)) =
    calls st ++ repeat (PrimaryCall (gemini_prompt situation tone)
                                    (generation_config tone)) k.
Proof.
  assert (Z : exists k, k <= MAX_RETRIES /\ k <= 1 /\
     calls st = calls st ++ repeat (PrimaryCall (gemini_prompt situation tone)
                                                (generation_config tone)) k)
    by (exists 0; repeat split; [lia | lia | now rewrite app_nil_r]).
  unfold generate_with_gemini, generate_with_gemini_body.
  destruct (cache_get _ _); [exact Z|].
  destruct (gemini (models st)); [|exact Z].
  pose proof (gemini_loop_calls B MAX_RETRIES 0 st
                (gemini_prompt situation tone) tone) as F.
  destruct (gemini_loop B MAX_RETRIES 0 st _ tone) as [st1 [v|e]];
    simpl in *; exact F.
Qed.

(** What a returned text says about the memo table: it is found under
    the key afterwards, and it came from the table without any call, or
    from the primary model's reply to the one call made on a miss. *)
Lemma generate_with_gemini_return st situation tone v :
  snd (generate_with_gemini B st situation tone) = Return v ->
  cache_get (situation, tone)
            (cache (fst (generate_with_gemini B st situation tone))) = Some v /\
  ((cache_get (situation, tone) (cache st) = Some v /\
    calls (fst (generate_with_gemini B st situation tone)) = calls st) \/
   (cache_get (situation, tone) (cache st) = None /\
    calls (fst (generate_with_gemini B st situation tone))
    = calls st ++ [PrimaryCall (gemini_prompt situation tone)
                               (generation_config tone)] /\
    generate_content B (calls st) (gemini_prompt situation tone)
                     (generation_config tone) = Return v)).
Proof.
  unfold generate_with_gemini, generate_with_gemini_body.
  destruct (cache_get _ _) as [w|] eqn:G.
  - simpl. intros H. assert (w = v) by congruence. subst w.
    split; [|left; auto].
    unfold cache_touch. simpl. now rewrite key_eqb_refl.
  - destruct (gemini (models st)); [|simpl; discriminate].
    pose proof (gemini_loop_return B MAX_RETRIES 0 st
                  (gemini_prompt situation tone) tone v) as R.
    destruct (gemini_loop B MAX_RETRIES 0 st _ tone) as [st1 [w|e']];
      simpl in *; [|discriminate].
    intros H. assert (w = v) by congruence. subst w.
    destruct R as (C & Ri); [unfold MAX_RETRIES; lia | reflexivity |].
    split; [apply cache_get_put_same|]. right. auto.
Qed.

(** What the generator raises is the failed lookup of [genai.APIError];
    nothing is stored. *)
Lemma generate_with_gemini_raise st situation tone e :
  snd (generate_with_gemini B st situation tone) = Raise e ->
  e = attribute_error /\
  cache (fst (generate_with_gemini B st situation tone)) = cache st /\
  (gemini (models st) = true ->
   calls (fst (generate_with_gemini B st situation tone))
   = calls st ++ [PrimaryCall (gemini_prompt situation tone)
                              (generation_config tone)] /\
   exists e', generate_content B (calls st) (gemini_prompt situation tone)
                               (generation_config tone) = Raise e').
Proof.
  unfold generate_with_gemini, generate_with_gemini_body.
  destruct (cache_get _ _); [discriminate|].
  destruct (gemini (models st)).
  - pose proof (gemini_loop_raise B MAX_RETRIES 0 st
                  (gemini_prompt situation tone) tone e) as R.
    pose proof (gemini_loop_frame B MAX_RETRIES 0 st
                  (gemini_prompt situation tone) tone) as (_ & _ & C & _).
    destruct (gemini_loop B MAX_RETRIES 0 st _ tone) as [st1 [v|e']];
      cbn [fst snd] in *; [discriminate|].
    intros H. destruct (R H) as (E & K & X). auto.
  - simpl. intros H. injection H as <-.
    split; [reflexivity|]. split; [reflexivity|discriminate].
Qed.

(** Whatever the table holds afterwards was there before, or is the text
    just returned for this key after a miss. *)
Lemma generate_with_gemini_cache st situation tone k v :
  cache_get k (cache (fst (generate_with_gemini B st situation tone)))
  = Some v ->
  cache_get k (cache st) = Some v \/
  (k = (situation, tone) /\
   cache_get (situation, tone) (cache st) = None /\
   snd (generate_with_gemini B st situation tone) = Return v).
Proof.
  unfold generate_with_gemini, generate_with_gemini_body.
  destruct (cache_get (situation, tone) (cache st)) as [w|] eqn:G.
  - cbn [fst set_cache cache]. rewrite (cache_get_touch _ _ _ _ G). auto.
  - destruct (gemini (models st)); [|simpl; auto].
    pose proof (gemini_loop_frame B MAX_RETRIES 0 st
                  (gemini_prompt situation tone) tone) as (_ & _ & C & _).
    destruct (gemini_loop B MAX_RETRIES 0 st _ tone) as [st1 [w|e']];
      simpl in *.
    + intros H. apply cache_get_put in H. rewrite C in H.
      destruct H as [[-> ->]|H]; auto.
    + rewrite C. auto.
Qed.

Lemma attribute_error_no_quota : is_quota attribute_error = false.
Proof. reflexivity. Qed.

(** *** The primary branch of [main] *)

(** The branch never sets the flag: the only exception that reaches
    [main] is the failed lookup, whose text does not mention the quota. *)
Lemma try_gemini_frame st situation tone :
  models (fst (fst (try_gemini B st situation tone))) = models st /\
  history (fst (fst (try_gemini B st situation tone))) = history st /\
  gemini_over_limit (fst (fst (try_gemini B st situation tone)))
  = gemini_over_limit st.
Proof.
  unfold try_gemini.
  destruct (negb _ && _); [|simpl; tauto].
  pose proof (generate_with_gemini_frame st
                (PyStr.lower (PyStr.strip situation))
                (PyStr.lower (tone_label tone))) as F.
  pose proof (generate_with_gemini_raise st
                (PyStr.lower (PyStr.strip situation))
                (PyStr.lower (tone_label tone))) as R.
  destruct (generate_with_gemini B st _ _) as [st1 [a|e]];
    cbn [fst snd] in *; [tauto|].
  destruct (R e eq_refl) as (-> & _).
  change (PyStr.contains "quota" (PyStr.lower (str attribute_error)))
    with (is_quota attribute_error).
  rewrite attribute_error_no_quota. tauto.
Qed.

Lemma try_gemini_calls st situation tone :
  exists k,
    k <= MAX_RETRIES /\ k <= 1 /\
    calls (fst (fst (try_gemini B st situation tone))) =
    calls st ++ repeat (primary_call situation tone) k /\
    (gemini_over_limit st = true \/ gemini (models st) = false -> k = 0).
Proof.
  unfold try_gemini.
  destruct (gemini_over_limit st), (gemini (models st)); simpl negb;
    cbn [andb];
    try (exists 0; simpl; rewrite app_nil_r; repeat split; lia).
  destruct (generate_with_gemini_calls st
              (PyStr.lower (PyStr.strip situation))
              (PyStr.lower (tone_label tone))) as (k & Hk & Hk1 & E).
  exists k. split; [exact Hk|]. split; [exact Hk1|].
  split; [|intros [?|?]; discriminate].
  destruct (generate_with_gemini B st _ _) as [st1 [a|e]]; simpl in *;
    [exact E|].
  destruct (PyStr.contains _ _); simpl; exact E.
Qed.

(** Either the branch answered from the memoised generator, or it left
    the apology empty. *)
Lemma try_gemini_result st situation tone :
  (gemini_over_limit st = false /\ gemini (models st) = true /\
   fst (fst (try_gemini B st situation tone)) =
   fst (generate_with_gemini B st (fst (request_key situation tone))
                             (snd (request_key situation tone))) /\
   snd (generate_with_gemini B st (fst (request_key situation tone))
                             (snd (request_key situation tone)))
   = Return (snd (fst (try_gemini B st situation tone))) /\
   snd (try_gemini B st situation tone) = "Gemini") \/
  (snd (fst (try_gemini B st situation tone)) = "" /\
   snd (try_gemini B st situation tone) = "").
Proof.
  unfold try_gemini, request_key. cbn [fst snd].
  destruct (gemini_over_limit st), (gemini (models st)); simpl negb;
    cbn [andb]; auto.
  destruct (generate_with_gemini B st _ _) as [st1 [a|e]]; simpl.
  - left. auto.
  - right. auto.
Qed.

Lemma try_gemini_cache st situation tone :
  cache (fst (fst (try_gemini B st situation tone))) = cache st \/
  cache (fst (fst (try_gemini B st situation tone))) =
  cache (fst (generate_with_gemini B st (fst (request_key situation tone))
                                   (snd (request_key situation tone)))).
Proof.
  unfold try_gemini, request_key. cbn [fst snd].
  destruct (negb _ && _); [|simpl; auto].
  destruct (generate_with_gemini B st _ _) as [st1 [a|e]]; simpl; auto.
  destruct (PyStr.contains _ _); simpl; auto.
Qed.

(** *** The fallback branch of [main] *)

Lemma try_gpt2_cases st situation tone apology model_used :
  (PyStr.truthy apology = false /\ gpt2 (models st) = true /\
   try_gpt2 B st situation tone apology model_used =
   (log_call st (secondary_call situation tone),
    snd (generate_with_gpt2 B st (fst (request_key situation tone))
                            (snd (request_key situation tone))),
    "GPT-2")) \/
  ((PyStr.truthy apology = true \/ gpt2 (models st) = false) /\
   try_gpt2 B st situation tone apology model_used
   = (st, apology, model_used)).
Proof.
  unfold try_gpt2, secondary_call, request_key, generate_with_gpt2.
  cbn [fst snd].
  destruct (PyStr.truthy apology), (gpt2 (models st)); simpl negb;
    cbn [andb]; auto.
  left. repeat split.
  destruct (pipeline B _ _ _ _); reflexivity.
Qed.

(** *** [main] as the composition of its two branches *)

Lemma submit_shape st situation tone now :
  PyStr.truthy (PyStr.strip situation) = true ->
  exists st1 a1 m1 st2 a2 m2,
    try_gemini B st situation tone = (st1, a1, m1) /\
    try_gpt2 B st1 situation tone a1 m1 = (st2, a2, m2) /\
    submit B st situation tone now =
    if PyStr.truthy a2
    then (set_history st2
            (history st2 ++ [new_entry situation tone now a2 m2]),
          Shown m2 a2)
    else (st2, Failed).
Proof.
  intros NB. unfold submit. rewrite NB. simpl negb. cbv iota.
  destruct (try_gemini B st situation tone) as [[st1 a1] m1].
  destruct (try_gpt2 B st1 situation tone a1 m1) as [[st2 a2] m2] eqn:E2.
  exists st1, a1, m1, st2, a2, m2.
  split; [reflexivity|]. split; [exact E2|]. reflexivity.
Qed.

(** Instantiates a fact about a branch at the triple it evaluated to. *)
Ltac at_result H E := rewrite E in H; cbn [fst snd] in H.

Lemma submit_blank st situation tone now :
  PyStr.truthy (PyStr.strip situation) = false ->
  submit B st situation tone now = (st, NoSituation).
Proof. intros H. unfold submit. now rewrite H. Qed.

Lemma submit_frame st situation tone now :
  models (fst (submit B st situation tone now)) = models st /\
  gemini_over_limit (fst (submit B st situation tone now))
  = gemini_over_limit st /\
  (history (fst (submit B st situation tone now)) = history st \/
   exists e,
     history (fst (submit B st situation tone now)) = history st ++ [e]).
Proof.
  destruct (PyStr.truthy (PyStr.strip situation)) eqn:NB;
    [|rewrite (submit_blank _ _ _ _ NB); simpl; auto].
  destruct (submit_shape st situation tone now NB)
    as (st1 & a1 & m1 & st2 & a2 & m2 & E1 & E2 & E3).
  pose proof (try_gemini_frame st situation tone) as F1. at_result F1 E1.
  destruct F1 as (M1 & H1 & G1).
  assert (M2 : models st2 = models st1 /\ history st2 = history st1 /\
               gemini_over_limit st2 = gemini_over_limit st1).
  { destruct (try_gpt2_cases st1 situation tone a1 m1)
      as [(_ & _ & E)|(_ & E)]; rewrite E in E2; inversion E2; subst;
      simpl; auto. }
  destruct M2 as (M2 & H2 & G2).
  rewrite E3. destruct (PyStr.truthy a2); simpl.
  - rewrite M2, M1, G2, G1, H2, H1. eauto.
  - rewrite M2, M1, G2, G1, H2, H1. auto.
Qed.

Lemma try_gemini_skipped st situation tone :
  gemini_over_limit st = true \/ gemini (models st) = false ->
  try_gemini B st situation tone = (st, "", "").
Proof.
  unfold try_gemini.
  intros [H|H]; rewrite H; simpl; [reflexivity|].
  now rewrite andb_false_r.
Qed.

(** The calls of one request: at most [MAX_RETRIES] to the primary model
    followed by at most one to the fallback, with fixed arguments. *)
Lemma submit_calls st situation tone now :
  exists k j,
    k <= MAX_RETRIES /\ j <= 1 /\
    calls (fst (submit B st situation tone now)) =
    calls st ++ repeat (primary_call situation tone) k
             ++ repeat (secondary_call situation tone) j /\
    (gemini_over_limit st = true \/ gemini (models st) = false ->
     k = 0 /\
     (PyStr.truthy (PyStr.strip situation) = true ->
      gpt2 (models st) = true -> j = 1)).
Proof.
  destruct (PyStr.truthy (PyStr.strip situation)) eqn:NB.
  2:{ rewrite (submit_blank _ _ _ _ NB). exists 0, 0. simpl.
      rewrite app_nil_r. split; [lia|]. split; [lia|].
      split; [reflexivity|]. intros _. split; [reflexivity|discriminate]. }
  destruct (submit_shape st situation tone now NB)
    as (st1 & a1 & m1 & st2 & a2 & m2 & E1 & E2 & E3).
  destruct (try_gemini_calls st situation tone) as (k & Hk & _ & C1 & Z1).
  at_result C1 E1.
  assert (C : calls (fst (submit B st situation tone now)) = calls st2)
    by (rewrite E3; destruct (PyStr.truthy a2); reflexivity).
  rewrite C.
  destruct (try_gpt2_cases st1 situation tone a1 m1)
    as [(_ & _ & E)|(TG & E)]; rewrite E in E2; inversion E2; subst.
  - exists k, 1. simpl. rewrite C1, <- app_assoc.
    split; [exact Hk|]. split; [lia|]. split; [reflexivity|].
    intros H. split; [auto|reflexivity].
  - exists k, 0. simpl. rewrite C1, app_nil_r.
    split; [exact Hk|]. split; [lia|]. split; [reflexivity|].
    intros H. split; [auto|]. intros _ G. exfalso.
    rewrite (try_gemini_skipped st situation tone H) in E1.
    inversion E1; subst. destruct TG as [T|T]; [discriminate|congruence].
Qed.

(** What [main] does after its primary branch: the memo table and the
    flag stay as that branch left them, and at most one call goes to the
    fallback. *)
Lemma submit_after_gemini st situation tone now :
  PyStr.truthy (PyStr.strip situation) = true ->
  cache (fst (submit B st situation tone now))
  = cache (fst (fst (try_gemini B st situation tone))) /\
  gemini_over_limit (fst (submit B st situation tone now))
  = gemini_over_limit (fst (fst (try_gemini B st situation tone))) /\
  exists j,
    j <= 1 /\
    calls (fst (submit B st situation tone now)) =
    calls (fst (fst (try_gemini B st situation tone)))
    ++ repeat (secondary_call situation tone) j.
Proof.
  intros NB.
  destruct (submit_shape st situation tone now NB)
    as (st1 & a1 & m1 & st2 & a2 & m2 & E1 & E2 & E3).
  rewrite E1. cbn [fst snd].
  assert (S : cache (fst (submit B st situation tone now)) = cache st2 /\
              gemini_over_limit (fst (submit B st situation tone now))
              = gemini_over_limit st2 /\
              calls (fst (submit B st situation tone now)) = calls st2)
    by (rewrite E3; destruct (PyStr.truthy a2); simpl; auto).
  destruct S as (-> & -> & ->).
  destruct (try_gpt2_cases st1 situation tone a1 m1)
    as [(_ & _ & E)|(_ & E)]; rewrite E in E2; inversion E2; subst; simpl.
  - split; [reflexivity|]. split; [reflexivity|]. exists 1. auto.
  - split; [reflexivity|]. split; [reflexivity|]. exists 0.
    split; [lia|]. simpl. now rewrite app_nil_r.
Qed.

(** The primary calls of a request are those of its primary branch. *)
Lemma submit_primary_calls st situation tone now :
  PyStr.truthy (PyStr.strip situation) = true ->
  primary_calls (calls_since st (fst (submit B st situation tone now)))
  = length (calls (fst (fst (try_gemini B st situation tone))))
    - length (calls st).
Proof.
  intros NB.
  destruct (submit_after_gemini st situation tone now NB)
    as (_ & _ & j & _ & C).
  destruct (try_gemini_calls st situation tone) as (k & _ & _ & C1 & _).
  rewrite C1 in C. rewrite <- app_assoc in C.
  rewrite (calls_since_app _ _ _ C), primary_calls_repeat by reflexivity.
  rewrite C1, length_app, repeat_length. lia.
Qed.

(** *** The primary branch on a miss, by the first reply *)

Section FirstReply.

Variables (st : State) (situation : string) (tone : Tone).

Hypothesis flag_clear : gemini_over_limit st = false.
Hypothesis gemini_present : gemini (models st) = true.
Hypothesis miss : cache_get (request_key situation tone) (cache st) = None.

Let prompt := gemini_prompt (fst (request_key situation tone))
                            (snd (request_key situation tone)).
Let cfg := generation_config (snd (request_key situation tone)).

Lemma try_gemini_unfold :
  try_gemini B st situation tone =
  match gemini_loop B MAX_RETRIES 0 st prompt
                    (snd (request_key situation tone)) with
  | (st1, Return v) =>
      (set_cache st1 (cache_put (request_key situation tone) v (cache st1)),
       v, "Gemini")
  | (st1, Raise e) =>
      (if is_quota e then set_over_limit st1 else st1, "", "")
  end.
Proof.
  unfold try_gemini, generate_with_gemini, generate_with_gemini_body.
  rewrite flag_clear, gemini_present. cbn [negb andb].
  fold (request_key situation tone). rewrite miss.
  unfold prompt, request_key. cbn [fst snd].
  destruct (gemini_loop B MAX_RETRIES 0 st _ _) as [st1 [v|e]]; reflexivity.
Qed.

(** A text on the first attempt is returned and stored. *)
Lemma try_gemini_text v :
  generate_content B (calls st) prompt cfg = Return v ->
  try_gemini B st situation tone =
  (set_cache (log_call st (primary_call situation tone))
             (cache_put (request_key situation tone) v (cache st)),
   v, "Gemini").
Proof.
  intros R. unfold prompt, cfg in R.
  rewrite try_gemini_unfold. unfold MAX_RETRIES, prompt.
  rewrite gemini_loop_S. rewrite R. reflexivity.
Qed.

(** An exception on the first attempt ends the branch after that one
    call, with the flag as it was. *)
Lemma try_gemini_raises e :
  generate_content B (calls st) prompt cfg = Raise e ->
  try_gemini B st situation tone =
  (log_call st (primary_call situation tone), "", "").
Proof.
  intros R. unfold prompt, cfg in R.
  rewrite try_gemini_unfold. unfold MAX_RETRIES, prompt.
  rewrite gemini_loop_S. rewrite R.
  now rewrite attribute_error_no_quota.
Qed.

End FirstReply.

End MainFacts.

(** ** Sessions *)

Lemma same_but_feedback_trans e1 e2 e3 :
  same_but_feedback e1 e2 -> same_but_feedback e2 e3 ->
  same_but_feedback e1 e3.
Proof.
  unfold same_but_feedback. intros (A1 & A2 & A3 & A4 & A5 & A6)
    (B1 & B2 & B3 & B4 & B5 & B6).
  repeat split; congruence.
Qed.

Lemma Forall2_same_trans h1 h2 h3 :
  Forall2 same_but_feedback h1 h2 -> Forall2 same_but_feedback h2 h3 ->
  Forall2 same_but_feedback h1 h3.
Proof.
  intros H. revert h3.
  induction H as [|e1 e2 h1 h2 S12 _ IH]; intros h3 H23;
    inversion H23; subst; constructor; eauto using same_but_feedback_trans.
Qed.

Section SessionFacts.

Variable B : Backends.

(** No action of a session changes the models or the flag. *)
Lemma step_frame st a :
  models (step B st a) = models st /\
  gemini_over_limit (step B st a) = gemini_over_limit st.
Proof.
  destruct a as [situation tone now|entry_id is_positive]; simpl.
  - destruct (submit_frame B (script_start st) situation tone now)
      as (M & F & _). auto.
  - auto.
Qed.

Lemma run_frame st l :
  models (run B st l) = models st /\
  gemini_over_limit (run B st l) = gemini_over_limit st.
Proof.
  revert st. induction l as [|a l IH]; intros st; simpl; [auto|].
  destruct (IH (step B st a)) as (M & F).
  destruct (step_frame st a) as (M' & F').
  split; congruence.
Qed.

(** One action keeps the entries it found, up to feedback, and may add
    entries after them. *)
Lemma step_history st a :
  exists old new,
    history (step B st a) = old ++ new /\
    Forall2 same_but_feedback (history st) old.
Proof.
  destruct a as [situation tone now|entry_id is_positive]; simpl.
  - destruct (submit_frame B (script_start st) situation tone now)
      as (_ & _ & [H|[e H]]); rewrite H; simpl.
    + exists (history st), []. rewrite app_nil_r.
      auto using Forall2_same_refl.
    + exists (history st), [e]. auto using Forall2_same_refl.
  - exists (handle_feedback_in (history st) entry_id is_positive), [].
    rewrite app_nil_r. auto using handle_feedback_in_frame.
Qed.

Lemma run_history st l :
  exists old new,
    history (run B st l) = old ++ new /\
    Forall2 same_but_feedback (history st) old.
Proof.
  revert st. induction l as [|a l IH]; intros st; simpl.
  - exists (history st), []. rewrite app_nil_r.
    auto using Forall2_same_refl.
  - destruct (step_history st a) as (o1 & n1 & E1 & F1).
    destruct (IH (step B st a)) as (o2 & n2 & E2 & F2).
    rewrite E1 in F2.
    apply Forall2_app_inv_l in F2. destruct F2 as (o2a & o2b & Fa & _ & ->).
    exists o2a, (o2b ++ n2). rewrite E2, app_assoc. split; [reflexivity|].
    eauto using Forall2_same_trans.
Qed.

End SessionFacts.

(** * The claims *)

(** C6. [handle_feedback] is idempotent: giving the same feedback value
    to the same entry id twice leaves the session state as giving it
    once does. *)
Theorem feedback_idempotent (st : State) (entry_id : string)
        (is_positive : bool) :
  handle_feedback (handle_feedback st entry_id is_positive)
                  entry_id is_positive
  = handle_feedback st entry_id is_positive.
Proof.
  unfold handle_feedback, set_history. simpl.
  now rewrite handle_feedback_in_idem.
Qed.

(** C7. Feedback for an id that no entry of the history carries changes
    nothing: [handle_feedback] is a total function (it cannot raise) and
    it returns the state it was given. *)
Theorem feedback_unknown_id_noop (st : State) (entry_id : string)
        (is_positive : bool) :
  (forall e, In e (history st) -> e_id e <> entry_id) ->
  handle_feedback st entry_id is_positive = st.
Proof.
  intros A. unfold handle_feedback.
  rewrite handle_feedback_in_absent by exact A.
  apply set_history_same.
Qed.

Lemma feedback_unknown_id_noop_witness :
  let e := {| e_id := "20240101120000000001"; e_timestamp := "2024-01-01 12:00";
              e_situation := "I was late"; e_tone := "sincere";
              e_apology := "Sorry."; e_model := "GPT-2";
              e_feedback := Some true |} in
  let st := set_history (initial_state true) [e] in
  handle_feedback st "20240101120000000002" false = st.
Proof.
  intros e st. apply (feedback_unknown_id_noop st).
  intros e' [<-|[]]. simpl. discriminate.
Defined.

(** C8. The feedback is the only field [handle_feedback] writes: the
    history keeps its length and its order, and at every position the
    id, timestamp, situation, tone, apology and model are those of the
    entry that was there.  Across any session (requests and feedback in
    any order) the entries present at the start stay in place, in order,
    changed at most in their feedback; requests only add entries after
    them. *)
Theorem feedback_only_mutable_field (B : Backends) (st : State) :
  (forall entry_id is_positive,
      length (history (handle_feedback st entry_id is_positive))
      = length (history st) /\
      Forall2 same_but_feedback
              (history st)
              (history (handle_feedback st entry_id is_positive))) /\
  (forall l, exists old new,
      history (run B st l) = old ++ new /\
      Forall2 same_but_feedback (history st) old).
Proof.
  split.
  - intros entry_id is_positive. simpl. split.
    + apply handle_feedback_in_length.
    + apply handle_feedback_in_frame.
  - intros l. apply run_history.
Qed.

(** C9. The configuration given to the primary model depends on the tone
    alone: every primary call of a request carries
    [generation_config] of its tone, and that function gives "funny" the
    temperature 0.7 and each of the three other tones one common, lower
    temperature, 0.3. *)
Theorem sampling_config_by_tone :
  (forall B st situation tone now prompt cfg,
      In (PrimaryCall prompt cfg)
         (calls_since st (fst (submit B st situation tone now))) ->
      cfg = generation_config (PyStr.lower (tone_label tone))) /\
  (forall tone,
      tone <> funny ->
      temperature (generation_config (PyStr.lower (tone_label tone)))
      = temperature (generation_config (PyStr.lower (tone_label formal))) /\
      (temperature (generation_config (PyStr.lower (tone_label tone)))
       < temperature (generation_config (PyStr.lower (tone_label funny))))%Q).
Proof.
  split.
  - intros B st situation tone now prompt cfg H.
    destruct (submit_calls B st situation tone now)
      as (k & j & _ & _ & C & _).
    rewrite (calls_since_app _ _ _ C) in H.
    apply in_app_or in H. destruct H as [H|H]; apply repeat_spec in H.
    + unfold primary_call, request_key in H. cbn [fst snd] in H.
      congruence.
    + discriminate.
  - intros tone N. destruct tone; try contradiction; split;
      try reflexivity; unfold Qlt; simpl; lia.
Qed.

Lemma sampling_config_by_tone_witness :
  generation_config "funny"
  = generation_config (PyStr.lower (tone_label funny)) /\
  temperature (generation_config (PyStr.lower (tone_label sincere)))
  = temperature (generation_config (PyStr.lower (tone_label formal))) /\
  (temperature (generation_config (PyStr.lower (tone_label sincere)))
   < temperature (generation_config (PyStr.lower (tone_label funny))))%Q.
Proof.
  split.
  - apply (proj1 sampling_config_by_tone
                 (constant_backends (Return "I am sorry.") (Return "Oops."))
                 (initial_state true) " I broke your Phone " funny noon
                 "Write a funny apology note for: i broke your phone. Keep it under 3 sentences.").
    vm_compute. left. reflexivity.
  - apply (proj2 sampling_config_by_tone sincere). discriminate.
Defined.

Lemma calls_since_same st : calls_since st st = [].
Proof. unfold calls_since. apply skipn_all. Qed.

(** On a miss, with the flag clear and the model in place, a request
    makes exactly one primary call. *)
Lemma submit_miss_primary_calls B st situation tone now :
  PyStr.truthy (PyStr.strip situation) = true ->
  gemini_over_limit st = false ->
  gemini (models st) = true ->
  cache_get (request_key situation tone) (cache st) = None ->
  primary_calls (calls_since st (fst (submit B st situation tone now))) = 1.
Proof.
  intros NB F G M. rewrite submit_primary_calls by exact NB.
  destruct (generate_content B (calls st)
              (gemini_prompt (fst (request_key situation tone))
                             (snd (request_key situation tone)))
              (generation_config (snd (request_key situation tone))))
    as [v|e] eqn:R.
  - rewrite (try_gemini_text B st situation tone F G M v R).
    cbn [fst calls set_cache log_call]. rewrite length_app. simpl. lia.
  - rewrite (try_gemini_raises B st situation tone F G M e R).
    cbn [fst calls log_call]. rewrite length_app. simpl. lia.
Qed.

(** C5. One request calls the primary model at most [MAX_RETRIES] = 2
    times.  The count starts afresh with every request: after any
    session, whatever the earlier requests did, a request made with the
    flag clear and the model in place makes its primary call, one and no
    more.  An exception with a quota text on the first attempt ends the
    loop at once: the request makes exactly one primary call. *)
Theorem primary_retry_budget (B : Backends) :
  MAX_RETRIES = 2 /\
  (forall st situation tone now,
      primary_calls (calls_since st (fst (submit B st situation tone now)))
      <= MAX_RETRIES) /\
  (forall st l situation tone now,
      PyStr.truthy (PyStr.strip situation) = true ->
      gemini_over_limit st = false ->
      gemini (models st) = true ->
      primary_calls
        (calls_since (run B st l)
                     (step B (run B st l) (Generate situation tone now)))
      = 1) /\
  (forall st situation tone now e,
      PyStr.truthy (PyStr.strip situation) = true ->
      gemini_over_limit st = false ->
      gemini (models st) = true ->
      cache_get (request_key situation tone) (cache st) = None ->
      generate_content B (calls st)
        (gemini_prompt (fst (request_key situation tone))
                       (snd (request_key situation tone)))
        (generation_config (snd (request_key situation tone)))
      = Raise e ->
      is_quota e = true ->
      primary_calls (calls_since st (fst (submit B st situation tone now)))
      = 1).
Proof.
  split; [reflexivity|]. split; [|split].
  - intros st situation tone now.
    destruct (submit_calls B st situation tone now)
      as (k & j & Hk & _ & C & _).
    rewrite (calls_since_app _ _ _ C), primary_calls_repeat by reflexivity.
    exact Hk.
  - intros st l situation tone now NB F G.
    destruct (run_frame B st l) as (M & F').
    cbn [step].
    change (calls_since (run B st l))
      with (calls_since (script_start (run B st l))).
    apply submit_miss_primary_calls; try assumption.
    + simpl. congruence.
    + simpl. congruence.
    + reflexivity.
  - intros st situation tone now e NB F G M R Q.
    now apply submit_miss_primary_calls.
Qed.

Lemma primary_retry_budget_witness :
  let B := constant_backends (Raise quota_error) (Return "Sorry I was late.") in
  primary_calls
    (calls_since
       (run B (initial_state true)
            [Generate "I was late" sincere noon;
             Feedback "20240101120000000000" true])
       (step B (run B (initial_state true)
                    [Generate "I was late" sincere noon;
                     Feedback "20240101120000000000" true])
             (Generate "I was late" sincere one_past_noon)))
  = 1 /\
  primary_calls
    (calls_since (initial_state true)
       (fst (submit B (initial_state true) "I was late" sincere noon)))
  = 1.
Proof.
  intros B. split.
  - apply (proj1 (proj2 (proj2 (primary_retry_budget B)))
             (initial_state true)
             [Generate "I was late" sincere noon;
              Feedback "20240101120000000000" true]
             "I was late" sincere one_past_noon); reflexivity.
  - apply (proj2 (proj2 (proj2 (primary_retry_budget B)))
             (initial_state true) "I was late" sincere noon quota_error);
      reflexivity.
Defined.

(** C10. When the primary model answers without error but with an empty
    text, [main] goes on as after a primary failure: the fallback is
    called (once, after the single primary call), and if what it yields
    is not empty the request is shown as generated by GPT-2 and the
    entry appended to the history has "GPT-2" in its model field and the
    fallback's text as its apology. *)
Theorem empty_primary_text_falls_back (B : Backends) (st : State)
        (situation : string) (tone : Tone) (now : Clock) :
  PyStr.truthy (PyStr.strip situation) = true ->
  gemini_over_limit st = false ->
  gemini (models st) = true ->
  gpt2 (models st) = true ->
  cache_get (request_key situation tone) (cache st) = None ->
  generate_content B (calls st)
    (gemini_prompt (fst (request_key situation tone))
                   (snd (request_key situation tone)))
    (generation_config (snd (request_key situation tone))) = Return "" ->
  let apology :=
    snd (generate_with_gpt2 B
           (set_cache (log_call st (primary_call situation tone))
                      (cache_put (request_key situation tone) ""
                                 (cache st)))
           (fst (request_key situation tone))
           (snd (request_key situation tone))) in
  calls_since st (fst (submit B st situation tone now))
  = [primary_call situation tone; secondary_call situation tone] /\
  (PyStr.truthy apology = true ->
   snd (submit B st situation tone now) = Shown "GPT-2" apology /\
   history (fst (submit B st situation tone now))
   = history st
     ++ [ {| e_id := now_id now;
             e_timestamp := now_timestamp now;
             e_situation := situation;
             e_tone := tone_label tone;
             e_apology := apology;
             e_model := "GPT-2";
             e_feedback := None |} ] /\
   e_model (last (history (fst (submit B st situation tone now)))
                 (mkEntry "" "" "" "" "" "" None)) = "GPT-2").
Proof.
  intros NB F G G2 M R apology.
  destruct (submit_shape B st situation tone now NB)
    as (st1 & a1 & m1 & st2 & a2 & m2 & E1 & E2 & E3).
  rewrite (try_gemini_text B st situation tone F G M "" R) in E1.
  inversion E1; subst st1 a1 m1. clear E1.
  destruct (try_gpt2_cases B
              (set_cache (log_call st (primary_call situation tone))
                         (cache_put (request_key situation tone) ""
                                    (cache st)))
              situation tone "" "Gemini")
    as [(_ & _ & E)|([T|T] & _)]; [|discriminate|simpl in T; congruence].
  rewrite E in E2. injection E2 as <- <- <-.
  rewrite E3.
  match goal with |- context [PyStr.truthy ?a] => change a with apology end.
  split.
  - apply calls_since_app.
    destruct (PyStr.truthy apology);
      cbn [fst calls set_history set_cache log_call];
      now rewrite <- app_assoc.
  - intros T. rewrite T. cbn [fst snd history set_history set_cache log_call].
    split; [reflexivity|]. split; [reflexivity|].
    now rewrite last_last.
Qed.

Lemma empty_primary_text_falls_back_witness :
  calls_since (initial_state true)
    (fst (submit (constant_backends (Return "") (Return "So sorry!"))
                 (initial_state true) "I broke your phone" funny noon))
  = [primary_call "I broke your phone" funny;
     secondary_call "I broke your phone" funny] /\
  (PyStr.truthy "So sorry!" = true ->
   snd (submit (constant_backends (Return "") (Return "So sorry!"))
               (initial_state true) "I broke your phone" funny noon)
   = Shown "GPT-2" "So sorry!" /\
   history (fst (submit (constant_backends (Return "") (Return "So sorry!"))
                        (initial_state true) "I broke your phone" funny noon))
   = [] ++ [ {| e_id := "20240101120000000000";
                e_timestamp := "2024-01-01 12:00";
                e_situation := "I broke your phone";
                e_tone := "funny";
                e_apology := "So sorry!";
                e_model := "GPT-2";
                e_feedback := None |} ] /\
   e_model (last (history
                    (fst (submit (constant_backends (Return "")
                                                    (Return "So sorry!"))
                                 (initial_state true) "I broke your phone"
                                 funny noon)))
                 (mkEntry "" "" "" "" "" "" None)) = "GPT-2").
Proof.
  apply (empty_primary_text_falls_back
           (constant_backends (Return "") (Return "So sorry!"))
           (initial_state true) "I broke your phone" funny noon);
    reflexivity.
Defined.

(** C4 (the code departs from it).  The primary model raises with a
    quota text on every call.  The [except] clause that would set the
    flag names [genai.APIError], which the module does not define, so
    what leaves [generate_with_gemini] is the failed lookup; its text
    does not mention the quota and [main] does not set the flag either.
    The flag is still clear after the request, and the next request, for
    another situation, calls the primary model again before it goes to
    the fallback. *)
Theorem quota_error_leaves_flag_clear :
  let B := constant_backends (Raise quota_error) (Return "My bad.") in
  let first := Generate "I broke your phone" funny noon in
  let second := Generate "I was late" sincere one_past_noon in
  is_quota quota_error = true /\
  gemini_over_limit (run B (initial_state true) [first]) = false /\
  calls (run B (initial_state true) [first])
  = [primary_call "I broke your phone" funny;
     secondary_call "I broke your phone" funny] /\
  gemini_over_limit (run B (initial_state true) [first; second]) = false /\
  calls (run B (initial_state true) [first; second])
  = [primary_call "I broke your phone" funny;
     secondary_call "I broke your phone" funny;
     primary_call "I was late" sincere;
     secondary_call "I was late" sincere].
Proof. repeat split. Qed.

(** ** Requests and the memo table *)

Section CacheFacts.

Variable B : Backends.

(** Whatever the table holds after the primary branch was there before,
    or is a text the primary model returned in this branch. *)
Lemma try_gemini_provenance st situation tone k v :
  cache_get k (cache (fst (fst (try_gemini B st situation tone)))) = Some v ->
  cache_get k (cache st) = Some v \/
  (k = request_key situation tone /\
   exists i,
     i < length (calls (fst (fst (try_gemini B st situation tone))))
         - length (calls st) /\
     generate_content B
       (calls st ++ repeat (primary_call situation tone) i)
       (gemini_prompt (fst (request_key situation tone))
                      (snd (request_key situation tone)))
       (generation_config (snd (request_key situation tone))) = Return v).
Proof.
  unfold try_gemini, primary_call, request_key. cbn [fst snd].
  destruct (negb _ && _); [|simpl; auto].
  pose proof (generate_with_gemini_cache B st
                (PyStr.lower (PyStr.strip situation))
                (PyStr.lower (tone_label tone)) k v) as C.
  pose proof (generate_with_gemini_return B st
                (PyStr.lower (PyStr.strip situation))
                (PyStr.lower (tone_label tone)) v) as R.
  destruct (generate_with_gemini B st _ _) as [st1 [a|e]];
    cbn [fst snd] in *.
  - intros H. destruct (C H) as [O|(-> & M & E)]; [auto|].
    destruct (R E) as (_ & [(O & _)|(_ & K & W)]); [congruence|].
    right. split; [reflexivity|]. exists 0. split.
    + rewrite K, length_app. simpl. lia.
    + simpl. rewrite app_nil_r. exact W.
  - assert (S : cache (if PyStr.contains "quota" (PyStr.lower (str e))
                       then set_over_limit st1 else st1) = cache st1)
      by (destruct (PyStr.contains _ _); reflexivity).
    rewrite S. intros H. destruct (C H) as [O|(_ & _ & E)];
      [auto|discriminate].
Qed.

(** A request shown as generated by Gemini leaves its text in the table
    under the request's key, and the flag clear. *)
Lemma submit_shown_gemini st situation tone now a :
  snd (submit B st situation tone now) = Shown "Gemini" a ->
  PyStr.truthy (PyStr.strip situation) = true /\
  PyStr.truthy a = true /\
  gemini_over_limit (fst (submit B st situation tone now)) = false /\
  gemini (models (fst (submit B st situation tone now))) = true /\
  cache_get (request_key situation tone)
            (cache (fst (submit B st situation tone now))) = Some a.
Proof.
  intros H.
  destruct (PyStr.truthy (PyStr.strip situation)) eqn:NB;
    [|rewrite (submit_blank B _ _ _ _ NB) in H; discriminate].
  split; [reflexivity|].
  destruct (submit_frame B st situation tone now) as (-> & -> & _).
  destruct (submit_after_gemini B st situation tone now NB)
    as (-> & _ & _).
  destruct (submit_shape B st situation tone now NB)
    as (st1 & a1 & m1 & st2 & a2 & m2 & E1 & E2 & E3).
  rewrite E3 in H.
  destruct (PyStr.truthy a2) eqn:T; cbn [snd] in H; [|discriminate].
  injection H as -> ->.
  destruct (try_gpt2_cases B st1 situation tone a1 m1)
    as [(_ & _ & E)|(_ & E)]; rewrite E in E2;
    [discriminate | injection E2 as -> -> ->].
  split; [exact T|].
  destruct (try_gemini_result B st situation tone) as [R|R];
    rewrite E1 in R; cbn [fst snd] in R.
  - destruct R as (F & G & S & R & _).
    destruct (generate_with_gemini_return B st _ _ _ R) as (C & _).
    rewrite E1. cbn [fst]. rewrite S. auto.
  - destruct R as (_ & R). discriminate.
Qed.

End CacheFacts.

(** C1 (the code departs from it). Primary fails with a transient error
    and the GPT-2 pipeline raises: [generate_with_gpt2] turns the
    exception into its fixed failure sentence, which is not empty, so
    [main] shows it as a GPT-2 apology and appends a history entry for
    it; the branch of [main] that reports a failed generation is not
    reached. *)
Theorem secondary_failure_recorded_as_apology :
  let B := constant_backends (Raise transient_error)
                             (Raise (OtherException "out of memory")) in
  snd (submit B (initial_state true) "I was late" sincere noon)
  = Shown "GPT-2" "Apology generation failed. Please try again." /\
  history (fst (submit B (initial_state true) "I was late" sincere noon))
  = [ {| e_id := "20240101120000000000";
         e_timestamp := "2024-01-01 12:00";
         e_situation := "I was late";
         e_tone := "sincere";
         e_apology := "Apology generation failed. Please try again.";
         e_model := "GPT-2";
         e_feedback := None |} ] /\
  gemini_over_limit
    (fst (submit B (initial_state true) "I was late" sincere noon)) = false /\
  calls_since (initial_state true)
    (fst (submit B (initial_state true) "I was late" sincere noon))
  = [primary_call "I was late" sincere; secondary_call "I was late" sincere].
Proof. repeat split. Qed.

(** C2, as stated, fails: only [generate_with_gemini] is memoised.  A
    request answered by GPT-2 leaves the table empty, and the same
    request again goes to both models again. *)
Lemma secondary_result_not_cached :
  let B := constant_backends (Raise transient_error)
                             (Return "I am sorry I was late.") in
  let st1 := fst (submit B (initial_state true) "I was late" sincere noon) in
  snd (submit B (initial_state true) "I was late" sincere noon)
  = Shown "GPT-2" "I am sorry I was late." /\
  cache_get (request_key "I was late" sincere) (cache st1) = None /\
  cache st1 = [] /\
  calls_since st1 (fst (submit B st1 "I was late" sincere one_past_noon))
  = [primary_call "I was late" sincere; secondary_call "I was late" sincere].
Proof. repeat split. Qed.

(** C2, amended. The memo table is keyed by the normalised
    (situation, tone) pair and holds texts returned by the primary model
    only.  After a request, every text in the table was there before or
    is, under the request's key, a text the primary model returned to one
    of the request's calls; a request shown as generated by Gemini has
    its text in the table under its key; and a request that goes to the
    fallback alone (flag set, or no primary model) leaves the table as
    it was, so what GPT-2 produces is never stored. *)
Theorem cache_holds_primary_texts_only (B : Backends) (st : State)
        (situation : string) (tone : Tone) (now : Clock) :
  (forall k v,
      cache_get k (cache (fst (submit B st situation tone now))) = Some v ->
      cache_get k (cache st) = Some v \/
      (k = request_key situation tone /\
       exists i,
         i < primary_calls
               (calls_since st (fst (submit B st situation tone now))) /\
         generate_content B
           (calls st ++ repeat (primary_call situation tone) i)
           (gemini_prompt (fst (request_key situation tone))
                          (snd (request_key situation tone)))
           (generation_config (snd (request_key situation tone)))
         = Return v)) /\
  (forall a,
      snd (submit B st situation tone now) = Shown "Gemini" a ->
      cache_get (request_key situation tone)
                (cache (fst (submit B st situation tone now))) = Some a) /\
  (gemini_over_limit st = true \/ gemini (models st) = false ->
   cache (fst (submit B st situation tone now)) = cache st).
Proof.
  split; [|split].
  - intros k v H.
    destruct (PyStr.truthy (PyStr.strip situation)) eqn:NB;
      [|rewrite (submit_blank B _ _ _ _ NB) in H; auto].
    destruct (submit_after_gemini B st situation tone now NB) as (C & _).
    rewrite C in H. rewrite submit_primary_calls by exact NB.
    now apply try_gemini_provenance.
  - intros a H. now apply submit_shown_gemini in H.
  - intros H.
    destruct (PyStr.truthy (PyStr.strip situation)) eqn:NB;
      [|now rewrite (submit_blank B _ _ _ _ NB)].
    destruct (submit_after_gemini B st situation tone now NB) as (-> & _).
    now rewrite (try_gemini_skipped B st situation tone H).
Qed.

Lemma cache_holds_primary_texts_only_witness :
  let B := constant_backends (Return "I am sorry.") (Return "Oops.") in
  let st1 := fst (submit B (initial_state true) "I was late" sincere noon) in
  cache_get (request_key "I was late" sincere) (cache st1)
  = Some "I am sorry." /\
  cache (fst (submit B (initial_state false) "I was late" sincere noon))
  = cache (initial_state false) /\
  (cache_get (request_key "I was late" sincere) (cache (initial_state true))
   = Some "I am sorry." \/
   (request_key "I was late" sincere = request_key "I was late" sincere /\
    exists i,
      i < primary_calls (calls_since (initial_state true) st1) /\
      generate_content B
        (calls (initial_state true)
         ++ repeat (primary_call "I was late" sincere) i)
        (gemini_prompt (fst (request_key "I was late" sincere))
                       (snd (request_key "I was late" sincere)))
        (generation_config (snd (request_key "I was late" sincere)))
      = Return "I am sorry.")).
Proof.
  intros B st1. split; [|split].
  - apply (proj1 (proj2 (cache_holds_primary_texts_only
             B (initial_state true) "I was late" sincere noon))).
    reflexivity.
  - apply (proj2 (proj2 (cache_holds_primary_texts_only
             B (initial_state false) "I was late" sincere noon))).
    right. reflexivity.
  - apply (proj1 (cache_holds_primary_texts_only
             B (initial_state true) "I was late" sincere noon)).
    reflexivity.
Defined.

(** C3 (the code departs from it).  The same request twice, the
    primary model healthy.  The first press is answered by Gemini and
    its text is stored in the memo table of that run of the script.  The
    second press runs the script again: the [def] under [@lru_cache] is
    executed anew and its table is empty, so the request is a miss and
    the primary model is called a second time. *)
Theorem repeated_request_calls_primary_again :
  let B := constant_backends (Return "I am sorry.") (Return "Oops.") in
  let first := Generate "I missed your birthday" formal noon in
  let second := Generate "I missed your birthday" formal one_past_noon in
  let st1 := run B (initial_state true) [first] in
  snd (submit B (script_start (initial_state true))
              "I missed your birthday" formal noon)
  = Shown "Gemini" "I am sorry." /\
  cache_get (request_key "I missed your birthday" formal) (cache st1)
  = Some "I am sorry." /\
  cache (script_start st1) = [] /\
  snd (submit B (script_start st1)
              "I missed your birthday" formal one_past_noon)
  = Shown "Gemini" "I am sorry." /\
  calls_since st1 (run B (initial_state true) [first; second])
  = [primary_call "I missed your birthday" formal].
Proof. repeat split. Qed.

(** * Further properties of the program *)

(** ** Trimming and lower-casing *)

Lemma lstrip_empty_iff s : PyStr.lstrip s = "" <-> all_space s = true.
Proof.
  induction s as [|c s IH]; simpl; [tauto|].
  destruct (PyStr.isspace c); simpl; [exact IH|].
  split; discriminate.
Qed.

Lemma rstrip_empty_iff s : PyStr.rstrip s = "" <-> all_space s = true.
Proof.
  induction s as [|c s IH]; simpl; [tauto|].
  destruct (PyStr.rstrip s) as [|d r].
  - destruct (PyStr.isspace c); simpl.
    + split; [intros _; now apply IH | reflexivity].
    + split; discriminate.
  - split; [discriminate|]. rewrite andb_true_iff. intros [_ A].
    apply IH in A. discriminate.
Qed.

Lemma all_space_lstrip s : all_space (PyStr.lstrip s) = all_space s.
Proof.
  induction s as [|c s IH]; simpl; [reflexivity|].
  destruct (PyStr.isspace c) eqn:E; simpl; [exact IH|].
  now rewrite E.
Qed.

Lemma strip_empty_iff s : PyStr.strip s = "" <-> all_space s = true.
Proof.
  unfold PyStr.strip. rewrite rstrip_empty_iff, all_space_lstrip. tauto.
Qed.

(** A string that starts with a visible character keeps it under
    [rstrip]. *)
Lemma rstrip_head c s :
  PyStr.isspace c = false ->
  exists r, PyStr.rstrip (String c s) = String c r.
Proof.
  intros E. simpl. destruct (PyStr.rstrip s) as [|d r]; rewrite ?E; eauto.
Qed.

Lemma lstrip_head s :
  PyStr.lstrip s = "" \/
  exists c r, PyStr.lstrip s = String c r /\ PyStr.isspace c = false.
Proof.
  induction s as [|c s IH]; simpl; [auto|].
  destruct (PyStr.isspace c) eqn:E; [exact IH|]. right. eauto.
Qed.

Lemma lstrip_idem s : PyStr.lstrip (PyStr.lstrip s) = PyStr.lstrip s.
Proof.
  destruct (lstrip_head s) as [->|(c & r & -> & E)]; [reflexivity|].
  simpl. now rewrite E.
Qed.

Lemma rstrip_idem s : PyStr.rstrip (PyStr.rstrip s) = PyStr.rstrip s.
Proof.
  induction s as [|c s IH]; [reflexivity|].
  simpl. destruct (PyStr.rstrip s) as [|d r] eqn:R.
  - destruct (PyStr.isspace c) eqn:E; simpl; [reflexivity|]. now rewrite E.
  - change (PyStr.rstrip (String c (String d r)) = String c (String d r)).
    change (match PyStr.rstrip (String d r) with
            | EmptyString => if PyStr.isspace c then EmptyString
                             else String c EmptyString
            | r' => String c r'
            end = String c (String d r)).
    now rewrite IH.
Qed.

Lemma strip_idem s : PyStr.strip (PyStr.strip s) = PyStr.strip s.
Proof.
  unfold PyStr.strip.
  destruct (lstrip_head s) as [->|(c & r & -> & E)]; [reflexivity|].
  destruct (rstrip_head c r E) as (r' & R). rewrite R.
  change (PyStr.lstrip (String c r')) with
    (if PyStr.isspace c then PyStr.lstrip r' else String c r').
  rewrite E, <- R. apply rstrip_idem.
Qed.

Lemma isspace_lower c : PyStr.isspace (PyStr.lower_ascii c) = PyStr.isspace c.
Proof.
  destruct c as [[] [] [] [] [] [] [] []]; reflexivity.
Qed.

Lemma lower_ascii_idem c :
  PyStr.lower_ascii (PyStr.lower_ascii c) = PyStr.lower_ascii c.
Proof.
  destruct c as [[] [] [] [] [] [] [] []]; reflexivity.
Qed.

Lemma lower_idem s : PyStr.lower (PyStr.lower s) = PyStr.lower s.
Proof.
  induction s as [|c s IH]; simpl; [reflexivity|].
  now rewrite lower_ascii_idem, IH.
Qed.

Lemma lstrip_lower s : PyStr.lstrip (PyStr.lower s) = PyStr.lower (PyStr.lstrip s).
Proof.
  induction s as [|c s IH]; simpl; [reflexivity|].
  rewrite isspace_lower. destruct (PyStr.isspace c); [exact IH|reflexivity].
Qed.

Lemma rstrip_lower s : PyStr.rstrip (PyStr.lower s) = PyStr.lower (PyStr.rstrip s).
Proof.
  induction s as [|c s IH]; simpl; [reflexivity|].
  rewrite IH, isspace_lower.
  destruct (PyStr.rstrip s); simpl; [|reflexivity].
  destruct (PyStr.isspace c); reflexivity.
Qed.

Lemma strip_lower s : PyStr.strip (PyStr.lower s) = PyStr.lower (PyStr.strip s).
Proof. unfold PyStr.strip. now rewrite lstrip_lower, rstrip_lower. Qed.

Lemma lstrip_app_space p s :
  all_space p = true -> PyStr.lstrip (p ++ s) = PyStr.lstrip s.
Proof.
  induction p as [|c p IH]; simpl; [reflexivity|].
  rewrite andb_true_iff. intros [-> A]. auto.
Qed.

Lemma lstrip_app_visible s p :
  all_space s = false -> PyStr.lstrip (s ++ p) = (PyStr.lstrip s ++ p)%string.
Proof.
  induction s as [|c s IH]; simpl; [discriminate|].
  destruct (PyStr.isspace c); simpl; auto.
Qed.

Lemma rstrip_app_space s p :
  all_space p = true -> PyStr.rstrip (s ++ p) = PyStr.rstrip s.
Proof.
  intros A. induction s as [|c s IH]; simpl.
  - now apply rstrip_empty_iff.
  - now rewrite IH.
Qed.

Lemma strip_padding p1 s p2 :
  all_space p1 = true -> all_space p2 = true ->
  PyStr.strip (p1 ++ s ++ p2) = PyStr.strip s.
Proof.
  intros A1 A2. unfold PyStr.strip. rewrite lstrip_app_space by exact A1.
  destruct (all_space s) eqn:A.
  - rewrite lstrip_app_space by exact A.
    assert (E : PyStr.lstrip s = "") by now apply lstrip_empty_iff.
    rewrite E. simpl. apply rstrip_empty_iff.
    rewrite all_space_lstrip. exact A2.
  - rewrite lstrip_app_visible by exact A.
    now apply rstrip_app_space.
Qed.

(** X1. For a situation written in ASCII characters, [main] rejects a
    request exactly when the situation is empty or made of white space
    only; a rejected request changes nothing: no model is called, and
    the history, the memo table and the flag are as before.  (Outside
    ASCII, Python's [strip] also removes Unicode white space, which these
    byte strings do not know.) *)
Theorem blank_situation_rejected (B : Backends) (st : State)
        (situation : string) (tone : Tone) (now : Clock) :
  is_ascii situation = true ->
  (snd (submit B st situation tone now) = NoSituation
   <-> all_space situation = true) /\
  (all_space situation = true ->
   submit B st situation tone now = (st, NoSituation)).
Proof.
  intros _.
  assert (E : PyStr.truthy (PyStr.strip situation)
              = negb (all_space situation)).
  { unfold PyStr.truthy. destruct (all_space situation) eqn:A.
    - apply strip_empty_iff in A. now rewrite A.
    - destruct (PyStr.strip situation) eqn:S; [|reflexivity].
      apply strip_empty_iff in S. congruence. }
  split.
  - split.
    + intros H. destruct (all_space situation); [reflexivity|].
      destruct (submit_shape B st situation tone now E)
        as (st1 & a1 & m1 & st2 & a2 & m2 & _ & _ & E3).
      rewrite E3 in H. destruct (PyStr.truthy a2); discriminate.
    + intros A. rewrite A in E. now rewrite (submit_blank B _ _ _ _ E).
  - intros A. rewrite A in E. exact (submit_blank B _ _ _ _ E).
Qed.

Lemma blank_situation_rejected_witness :
  is_ascii "   " = true /\
  submit (constant_backends (Return "I am sorry.") (Return "Oops."))
         (initial_state true) "   " formal noon
  = (initial_state true, NoSituation) /\
  (snd (submit (constant_backends (Return "I am sorry.") (Return "Oops."))
               (initial_state true) "I was late" formal noon) = NoSituation
   <-> all_space "I was late" = true).
Proof.
  split; [reflexivity|]. split.
  - apply (proj2 (blank_situation_rejected
                    (constant_backends (Return "I am sorry.") (Return "Oops."))
                    (initial_state true) "   " formal noon eq_refl)).
    reflexivity.
  - apply (proj1 (blank_situation_rejected
                    (constant_backends (Return "I am sorry.") (Return "Oops."))
                    (initial_state true) "I was late" formal noon eq_refl)).
Defined.

(** X2. Normalising is idempotent: trimming a trimmed string and
    lower-casing a lower-cased string change nothing, the two commute,
    and so the key of an already normalised situation is that
    situation's key. *)
Theorem normalisation_idempotent (situation : string) (tone : Tone) :
  PyStr.strip (PyStr.strip situation) = PyStr.strip situation /\
  PyStr.lower (PyStr.lower situation) = PyStr.lower situation /\
  PyStr.strip (PyStr.lower situation) = PyStr.lower (PyStr.strip situation) /\
  request_key (fst (request_key situation tone)) tone
  = request_key situation tone.
Proof.
  split; [apply strip_idem|]. split; [apply lower_idem|].
  split; [apply strip_lower|].
  unfold request_key. cbn [fst].
  now rewrite strip_lower, strip_idem, lower_idem.
Qed.

(** X3. The key of a request ignores white space around the situation
    and the case of its ASCII letters: two situations that are equal
    after lower-casing have the same key, and padding a situation with
    white space on either side does not change its key. *)
Theorem request_key_ignores_case_and_padding (tone : Tone) :
  (forall s1 s2,
      PyStr.lower s1 = PyStr.lower s2 ->
      request_key s1 tone = request_key s2 tone) /\
  (forall p1 s p2,
      all_space p1 = true -> all_space p2 = true ->
      request_key (p1 ++ s ++ p2) tone = request_key s tone).
Proof.
  split.
  - intros s1 s2 E. unfold request_key.
    now rewrite <- !strip_lower, E.
  - intros p1 s p2 A1 A2. unfold request_key.
    now rewrite strip_padding.
Qed.

Lemma request_key_ignores_case_and_padding_witness :
  request_key "I Broke YOUR phone" funny = request_key "i broke your phone" funny
  /\ request_key ("  " ++ "I was late" ++ " ") sincere
     = request_key "I was late" sincere.
Proof.
  split.
  - apply (proj1 (request_key_ignores_case_and_padding funny)). reflexivity.
  - apply (proj2 (request_key_ignores_case_and_padding sincere));
      reflexivity.
Defined.

(** ** Cutting the prompt out of the fallback's text *)

Lemma prefix_app old t : String.prefix old (old ++ t) = true.
Proof.
  induction old as [|c old IH]; simpl.
  - destruct t; reflexivity.
  - destruct (ascii_dec c c); [exact IH|congruence].
Qed.

Lemma remove_from_skip old u t :
  PyStr.remove_from old (u ++ t) (String.length u)
  = PyStr.remove_from old t 0.
Proof.
  induction u as [|c u IH]; simpl; [reflexivity|exact IH].
Qed.

Lemma remove_prefix old t :
  old <> "" -> PyStr.remove old (old ++ t)%string = PyStr.remove old t.
Proof.
  intros N. destruct old as [|c old]; [congruence|].
  unfold PyStr.remove.
  assert (S : PyStr.remove_from (String c old) (String c old ++ t) 0
              = PyStr.remove_from (String c old) (old ++ t)
                                  (String.length (String c old) - 1)).
  { change ((String c old ++ t)%string) with (String c (old ++ t)%string).
    cbn [PyStr.remove_from].
    change (String c (old ++ t)%string) with ((String c old ++ t)%string).
    now rewrite prefix_app. }
  rewrite S. replace (String.length (String c old) - 1)
    with (String.length old) by (simpl; lia).
  apply remove_from_skip.
Qed.

Lemma remove_absent old t :
  PyStr.contains old t = false -> PyStr.remove old t = t.
Proof.
  unfold PyStr.remove. induction t as [|c t IH]; [reflexivity|].
  intros H.
  assert (P : String.prefix old (String c t) = false /\
              PyStr.contains old t = false).
  { cbn [PyStr.contains] in H. apply orb_false_iff in H.
    destruct H as [P C]. split; [exact P|].
    destruct t; [|exact C].
    cbn [PyStr.contains]. rewrite orb_false_r.
    destruct old; [discriminate P|reflexivity]. }
  destruct P as [P C]. cbn [PyStr.remove_from]. rewrite P.
  f_equal. now apply IH.
Qed.

(** X4. GPT-2 echoes its prompt in front of what it generates.  When the
    pipeline yields the prompt followed by a continuation in which the
    prompt does not occur again, [generate_with_gpt2] yields the
    continuation, trimmed; it makes exactly one call to the pipeline,
    with [max_length] 100 and one return sequence. *)
Theorem gpt2_prompt_cut (B : Backends) (st : State)
        (situation tone continuation : string) :
  pipeline B (calls st) (gpt2_prompt situation tone) 100 1
  = Return (gpt2_prompt situation tone ++ continuation)%string ->
  PyStr.contains (gpt2_prompt situation tone) continuation = false ->
  snd (generate_with_gpt2 B st situation tone) = PyStr.strip continuation /\
  calls (fst (generate_with_gpt2 B st situation tone))
  = calls st ++ [SecondaryCall (gpt2_prompt situation tone) 100 1].
Proof.
  intros R N. unfold generate_with_gpt2. rewrite R. cbn [fst snd].
  split; [|reflexivity].
  rewrite remove_prefix by discriminate.
  now rewrite remove_absent.
Qed.

Lemma gpt2_prompt_cut_witness :
  let B := {| generate_content := fun _ _ _ => Raise transient_error;
              pipeline := fun _ prompt _ _ =>
                            Return (prompt ++ " I am so sorry!  ")%string |} in
  snd (generate_with_gpt2 B (initial_state false) "i was late" "sincere")
  = PyStr.strip " I am so sorry!  " /\
  calls (fst (generate_with_gpt2 B (initial_state false)
                                 "i was late" "sincere"))
  = calls (initial_state false)
    ++ [SecondaryCall (gpt2_prompt "i was late" "sincere") 100 1].
Proof.
  intros B.
  apply (gpt2_prompt_cut B (initial_state false) "i was late" "sincere"
                         " I am so sorry!  "); reflexivity.
Defined.

(** ** More on feedback *)

Lemma handle_feedback_in_split before entry after entry_id is_positive :
  (forall e, In e before -> e_id e <> entry_id) ->
  e_id entry = entry_id ->
  handle_feedback_in (before ++ entry :: after) entry_id is_positive
  = before ++ set_feedback entry (Some is_positive) :: after.
Proof.
  intros N E.
  induction before as [|e before IH]; simpl.
  - apply String.eqb_eq in E. now rewrite E.
  - destruct (String.eqb_spec (e_id e) entry_id) as [X|X].
    + exfalso. apply (N e); simpl; auto.
    + f_equal. apply IH. intros e' I. apply N. simpl. auto.
Qed.

(** X5. [handle_feedback] writes the first entry that carries the id, in
    insertion order, and no other: with the history split at that entry,
    the result is the same history with that entry's feedback set.
    Entries after it with the same id keep their feedback. *)
Theorem feedback_first_match (st : State) (before after : list Entry)
        (entry : Entry) (entry_id : string) (is_positive : bool) :
  history st = before ++ entry :: after ->
  (forall e, In e before -> e_id e <> entry_id) ->
  e_id entry = entry_id ->
  history (handle_feedback st entry_id is_positive)
  = before ++ set_feedback entry (Some is_positive) :: after.
Proof.
  intros H N E. simpl. rewrite H.
  now apply handle_feedback_in_split.
Qed.

Lemma feedback_first_match_witness :
  let e1 := mkEntry "1" "2024-01-01 12:00" "a" "formal" "Sorry." "Gemini" None in
  let e2 := mkEntry "2" "2024-01-01 12:01" "b" "funny" "Oops." "GPT-2" None in
  let e3 := mkEntry "2" "2024-01-01 12:01" "c" "funny" "Oh no." "GPT-2" None in
  history (handle_feedback (set_history (initial_state true) [e1; e2; e3])
                           "2" false)
  = [e1] ++ set_feedback e2 (Some false) :: [e3].
Proof.
  intros e1 e2 e3.
  apply (feedback_first_match (set_history (initial_state true) [e1; e2; e3])
                              [e1] [e3] e2 "2" false);
    [reflexivity | | reflexivity].
  intros e [<-|[]]. discriminate.
Defined.

Lemma handle_feedback_in_overwrite h i b b' :
  handle_feedback_in (handle_feedback_in h i b) i b'
  = handle_feedback_in h i b'.
Proof.
  induction h as [|e rest IH]; simpl; [reflexivity|].
  destruct (String.eqb (e_id e) i) eqn:E; simpl; rewrite E.
  - reflexivity.
  - now rewrite IH.
Qed.

Lemma handle_feedback_in_comm h i j b c :
  i <> j ->
  handle_feedback_in (handle_feedback_in h i b) j c
  = handle_feedback_in (handle_feedback_in h j c) i b.
Proof.
  intros N. induction h as [|e rest IH]; simpl; [reflexivity|].
  destruct (String.eqb_spec (e_id e) i) as [Ei|Ei];
    destruct (String.eqb_spec (e_id e) j) as [Ej|Ej]; simpl.
  - congruence.
  - apply String.eqb_neq in Ej. apply String.eqb_eq in Ei.
    now rewrite Ej, Ei.
  - apply String.eqb_neq in Ei. apply String.eqb_eq in Ej.
    now rewrite Ej, Ei.
  - apply String.eqb_neq in Ei. apply String.eqb_neq in Ej.
    now rewrite Ej, Ei, IH.
Qed.

(** X6. The last click wins: feedback given to an id after an earlier
    feedback to the same id leaves the state that the later feedback
    alone would leave, whatever the two values are. *)
Theorem feedback_last_write_wins (st : State) (entry_id : string)
        (first_value second_value : bool) :
  handle_feedback (handle_feedback st entry_id first_value)
                  entry_id second_value
  = handle_feedback st entry_id second_value.
Proof.
  unfold handle_feedback, set_history. simpl.
  now rewrite handle_feedback_in_overwrite.
Qed.

(** X7. Feedback to two different ids can be given in either order: the
    resulting state is the same. *)
Theorem feedback_commutes (st : State) (id1 id2 : string) (v1 v2 : bool) :
  id1 <> id2 ->
  handle_feedback (handle_feedback st id1 v1) id2 v2
  = handle_feedback (handle_feedback st id2 v2) id1 v1.
Proof.
  intros N. unfold handle_feedback, set_history. simpl.
  now rewrite (handle_feedback_in_comm _ _ _ _ _ N).
Qed.

Lemma feedback_commutes_witness :
  let e1 := mkEntry "1" "2024-01-01 12:00" "a" "formal" "Sorry." "Gemini" None in
  let e2 := mkEntry "2" "2024-01-01 12:01" "b" "funny" "Oops." "GPT-2" None in
  let st := set_history (initial_state true) [e1; e2] in
  handle_feedback (handle_feedback st "1" true) "2" false
  = handle_feedback (handle_feedback st "2" false) "1" true.
Proof.
  intros e1 e2 st. apply (feedback_commutes st "1" "2" true false).
  discriminate.
Defined.

(** The history after a shown request. *)
Lemma submit_shown_history B st situation tone now model_used apology :
  snd (submit B st situation tone now) = Shown model_used apology ->
  history (fst (submit B st situation tone now))
  = history st ++ [new_entry situation tone now apology model_used].
Proof.
  intros S.
  destruct (PyStr.truthy (PyStr.strip situation)) eqn:NB;
    [|rewrite (submit_blank B _ _ _ _ NB) in S; discriminate].
  destruct (submit_shape B st situation tone now NB)
    as (st1 & a1 & m1 & st2 & a2 & m2 & E1 & E2 & E3).
  pose proof (try_gemini_frame B st situation tone) as F1.
  rewrite E1 in F1. cbn [fst] in F1. destruct F1 as (_ & H1 & _).
  assert (H2 : history st2 = history st1).
  { destruct (try_gpt2_cases B st1 situation tone a1 m1)
      as [(_ & _ & E)|(_ & E)]; rewrite E in E2; inversion E2; subst;
      reflexivity. }
  rewrite E3 in *. destruct (PyStr.truthy a2); cbn [fst snd] in *;
    [|discriminate].
  injection S as -> ->. simpl. now rewrite H2, H1.
Qed.

(** X8. Rating the apology just generated.  When a request is shown and
    its id is carried by no earlier entry, feedback given to that id
    marks the entry the request appended and leaves every earlier entry
    exactly as it was. *)
Theorem feedback_on_new_entry (B : Backends) (st : State)
        (situation : string) (tone : Tone) (now : Clock)
        (model_used apology : string) (is_positive : bool) :
  snd (submit B st situation tone now) = Shown model_used apology ->
  (forall e, In e (history st) -> e_id e <> now_id now) ->
  history (handle_feedback (fst (submit B st situation tone now))
                           (now_id now) is_positive)
  = history st
    ++ [set_feedback (new_entry situation tone now apology model_used)
                     (Some is_positive)].
Proof.
  intros S N. simpl.
  rewrite (submit_shown_history B st situation tone now _ _ S).
  now apply handle_feedback_in_split.
Qed.

Lemma feedback_on_new_entry_witness :
  let B := constant_backends (Return "I am sorry.") (Return "Oops.") in
  history (handle_feedback
             (fst (submit B (initial_state true) "I was late" sincere noon))
             (now_id noon) true)
  = history (initial_state true)
    ++ [set_feedback (new_entry "I was late" sincere noon "I am sorry." "Gemini")
                     (Some true)].
Proof.
  intros B.
  apply (feedback_on_new_entry B (initial_state true) "I was late" sincere
                               noon "Gemini" "I am sorry." true).
  - reflexivity.
  - intros e [].
Defined.

(** ** More on the primary branch and on [main] *)

Section RaiseFacts.

Variable B : Backends.

(** The primary branch of [main] when the generator raises. *)
Lemma try_gemini_raise st situation tone e :
  gemini_over_limit st = false ->
  gemini (models st) = true ->
  snd (generate_with_gemini B st (fst (request_key situation tone))
                            (snd (request_key situation tone))) = Raise e ->
  try_gemini B st situation tone =
  (if is_quota e
   then set_over_limit
          (fst (generate_with_gemini B st (fst (request_key situation tone))
                                     (snd (request_key situation tone))))
   else fst (generate_with_gemini B st (fst (request_key situation tone))
                                  (snd (request_key situation tone))),
   "", "").
Proof.
  intros F G. unfold try_gemini, request_key. cbn [fst snd].
  rewrite F, G. cbn [negb andb].
  destruct (generate_with_gemini B st _ _) as [st1 [v|e']]; cbn [fst snd];
    [discriminate|].
  intros H. injection H as ->. reflexivity.
Qed.

Lemma try_gemini_return st situation tone v :
  gemini_over_limit st = false ->
  gemini (models st) = true ->
  snd (generate_with_gemini B st (fst (request_key situation tone))
                            (snd (request_key situation tone))) = Return v ->
  try_gemini B st situation tone =
  (fst (generate_with_gemini B st (fst (request_key situation tone))
                             (snd (request_key situation tone))),
   v, "Gemini").
Proof.
  intros F G. unfold try_gemini, request_key. cbn [fst snd].
  rewrite F, G. cbn [negb andb].
  destruct (generate_with_gemini B st _ _) as [st1 [w|e']]; cbn [fst snd];
    [|discriminate].
  intros H. injection H as ->. reflexivity.
Qed.

End RaiseFacts.

(** X9. What [main] shows and what it records go together.  A shown
    apology is never empty, its model is "Gemini" or "GPT-2", and exactly
    one entry is appended for it: it carries the clock's id and
    timestamp, the situation as typed (not normalised), the tone, the
    shown text and model, and no feedback.  A rejected or failed request
    leaves the history as it was. *)
Theorem history_entry_iff_shown (B : Backends) (st : State)
        (situation : string) (tone : Tone) (now : Clock) :
  match snd (submit B st situation tone now) with
  | Shown model_used apology =>
      PyStr.truthy apology = true /\
      (model_used = "Gemini" \/ model_used = "GPT-2") /\
      history (fst (submit B st situation tone now))
      = history st
        ++ [ {| e_id := now_id now;
                e_timestamp := now_timestamp now;
                e_situation := situation;
                e_tone := tone_label tone;
                e_apology := apology;
                e_model := model_used;
                e_feedback := None |} ]
  | _ => history (fst (submit B st situation tone now)) = history st
  end.
Proof.
  destruct (PyStr.truthy (PyStr.strip situation)) eqn:NB;
    [|now rewrite (submit_blank B _ _ _ _ NB)].
  destruct (submit_shape B st situation tone now NB)
    as (st1 & a1 & m1 & st2 & a2 & m2 & E1 & E2 & E3).
  pose proof (try_gemini_frame B st situation tone) as F1.
  rewrite E1 in F1. cbn [fst] in F1. destruct F1 as (_ & H1 & _).
  pose proof (try_gemini_result B st situation tone) as R1.
  rewrite E1 in R1. cbn [fst snd] in R1.
  assert (H2 : history st2 = history st1 /\
               (PyStr.truthy a2 = true -> m2 = "Gemini" \/ m2 = "GPT-2")).
  { destruct (try_gpt2_cases B st1 situation tone a1 m1)
      as [(_ & _ & E)|(_ & E)]; rewrite E in E2; inversion E2; subst;
      split; auto.
    intros T. destruct R1 as [(_ & _ & _ & _ & ->)|(-> & _)];
      [auto|discriminate]. }
  destruct H2 as (H2 & M).
  rewrite E3. destruct (PyStr.truthy a2) eqn:T; cbn [fst snd].
  - split; [exact T|]. split; [auto|]. simpl. now rewrite H2, H1.
  - congruence.
Qed.

(** X10. A failed generation is reported only when the fallback was
    called and returned a text that is empty once the prompt is cut out
    and the rest trimmed (or when there is no fallback model); an
    exception of the pipeline never leads there.  The failed request made
    its primary calls, then that one fallback call. *)
Theorem failed_only_on_empty_fallback_text (B : Backends) (st : State)
        (situation : string) (tone : Tone) (now : Clock) :
  snd (submit B st situation tone now) = Failed ->
  gpt2 (models st) = true ->
  exists k generated_text,
    k <= MAX_RETRIES /\
    calls_since st (fst (submit B st situation tone now))
    = repeat (primary_call situation tone) k
      ++ [secondary_call situation tone] /\
    pipeline B (calls st ++ repeat (primary_call situation tone) k)
             (gpt2_prompt (fst (request_key situation tone))
                          (snd (request_key situation tone))) 100 1
    = Return generated_text /\
    PyStr.strip
      (PyStr.remove (gpt2_prompt (fst (request_key situation tone))
                                 (snd (request_key situation tone)))
                    generated_text) = "".
Proof.
  intros H G.
  destruct (PyStr.truthy (PyStr.strip situation)) eqn:NB;
    [|rewrite (submit_blank B _ _ _ _ NB) in H; discriminate].
  destruct (submit_shape B st situation tone now NB)
    as (st1 & a1 & m1 & st2 & a2 & m2 & E1 & E2 & E3).
  destruct (try_gemini_calls B st situation tone) as (k & Hk & _ & C1 & _).
  pose proof (try_gemini_frame B st situation tone) as (M1 & _ & _).
  rewrite E1 in C1, M1. cbn [fst] in C1, M1.
  rewrite E3 in *.
  destruct (PyStr.truthy a2) eqn:T; cbn [fst snd] in *; [discriminate|].
  destruct (try_gpt2_cases B st1 situation tone a1 m1)
    as [(_ & _ & E)|([T1|G1] & E)]; rewrite E in E2;
    injection E2 as <- <- <-; [| congruence | congruence].
  unfold generate_with_gpt2 in T. rewrite C1 in T.
  exists k.
  destruct (pipeline B _ _ _ _) as [generated_text|e] eqn:P;
    cbn [snd] in T; [|discriminate].
  exists generated_text. split; [exact Hk|]. split.
  - apply calls_since_app. cbn [calls log_call].
    now rewrite C1, <- app_assoc.
  - split; [reflexivity|].
    unfold PyStr.truthy in T. apply negb_false_iff in T.
    now apply String.eqb_eq in T.
Qed.

Lemma failed_only_on_empty_fallback_text_witness :
  let B := {| generate_content := fun _ _ _ => Raise transient_error;
              pipeline := fun _ prompt _ _ => Return (prompt ++ "  ")%string |} in
  exists k generated_text,
    k <= MAX_RETRIES /\
    calls_since (initial_state false)
      (fst (submit B (initial_state false) "I was late" sincere noon))
    = repeat (primary_call "I was late" sincere) k
      ++ [secondary_call "I was late" sincere] /\
    pipeline B (calls (initial_state false)
                ++ repeat (primary_call "I was late" sincere) k)
             (gpt2_prompt (fst (request_key "I was late" sincere))
                          (snd (request_key "I was late" sincere))) 100 1
    = Return generated_text /\
    PyStr.strip
      (PyStr.remove (gpt2_prompt (fst (request_key "I was late" sincere))
                                 (snd (request_key "I was late" sincere)))
                    generated_text) = "".
Proof.
  intros B.
  apply (failed_only_on_empty_fallback_text
           B (initial_state false) "I was late" sincere noon); reflexivity.
Defined.

Section BranchFacts.

Variable B : Backends.

(** [main] after a primary branch that left the apology empty, with the
    fallback model in place. *)
Lemma submit_fallback st situation tone now st1 m1 :
  PyStr.truthy (PyStr.strip situation) = true ->
  gpt2 (models st) = true ->
  try_gemini B st situation tone = (st1, "", m1) ->
  calls (fst (submit B st situation tone now))
  = calls st1 ++ [secondary_call situation tone] /\
  gemini_over_limit (fst (submit B st situation tone now))
  = gemini_over_limit st1 /\
  cache (fst (submit B st situation tone now)) = cache st1 /\
  snd (submit B st situation tone now)
  = (if PyStr.truthy
          (snd (generate_with_gpt2 B st1 (fst (request_key situation tone))
                                   (snd (request_key situation tone))))
     then Shown "GPT-2"
            (snd (generate_with_gpt2 B st1
                    (fst (request_key situation tone))
                    (snd (request_key situation tone))))
     else Failed).
Proof.
  intros NB G E1.
  destruct (submit_shape B st situation tone now NB)
    as (st1' & a1 & m1' & st2 & a2 & m2 & E1' & E2 & E3).
  rewrite E1 in E1'. injection E1' as <- <- <-.
  pose proof (try_gemini_frame B st situation tone) as (M1 & _ & _).
  rewrite E1 in M1. cbn [fst] in M1.
  destruct (try_gpt2_cases B st1 situation tone "" m1)
    as [(_ & _ & E)|([T|T] & _)]; [|discriminate|congruence].
  rewrite E in E2. injection E2 as <- <- <-.
  rewrite E3. unfold request_key. cbn [fst snd].
  match goal with |- context [if ?b then _ else _] => destruct b end;
    cbn [fst snd]; auto.
Qed.

End BranchFacts.

(** X11. No exception of the primary model is retried.  When the
    primary call of a request raises, whatever the exception, the
    [except] clause cannot be evaluated and the loop is left: the
    request makes that one primary call and then the fallback call,
    stores nothing in the memo table and leaves the flag clear. *)
Theorem primary_exception_not_retried (B : Backends) (st : State)
        (situation : string) (tone : Tone) (now : Clock) (e : Exn) :
  PyStr.truthy (PyStr.strip situation) = true ->
  gemini_over_limit st = false ->
  gemini (models st) = true ->
  gpt2 (models st) = true ->
  cache_get (request_key situation tone) (cache st) = None ->
  generate_content B (calls st)
    (gemini_prompt (fst (request_key situation tone))
                   (snd (request_key situation tone)))
    (generation_config (snd (request_key situation tone)))
  = Raise e ->
  calls_since st (fst (submit B st situation tone now))
  = [primary_call situation tone; secondary_call situation tone] /\
  gemini_over_limit (fst (submit B st situation tone now)) = false /\
  cache (fst (submit B st situation tone now)) = cache st.
Proof.
  intros NB F G G2 M R.
  pose proof (try_gemini_raises B st situation tone F G M e R) as E1.
  destruct (submit_fallback B st situation tone now _ _ NB G2 E1)
    as (C & F' & K & _).
  rewrite F', K. split; [|split].
  - apply calls_since_app. rewrite C. cbn [calls log_call].
    now rewrite <- app_assoc.
  - exact F.
  - reflexivity.
Qed.

Lemma primary_exception_not_retried_witness :
  let B := constant_backends (Raise transient_error) (Return "Oops.") in
  calls_since (initial_state true)
    (fst (submit B (initial_state true) "I was late" sincere noon))
  = [primary_call "I was late" sincere; secondary_call "I was late" sincere] /\
  gemini_over_limit
    (fst (submit B (initial_state true) "I was late" sincere noon)) = false /\
  cache (fst (submit B (initial_state true) "I was late" sincere noon))
  = cache (initial_state true).
Proof.
  intros B.
  apply (primary_exception_not_retried B (initial_state true) "I was late"
           sincere noon transient_error); reflexivity.
Defined.

(** X13. Nothing sets the flag.  The only exception that can leave
    [generate_with_gemini] is the failed lookup of [genai.APIError], and
    its text does not mention the quota, so neither the [except] clause
    of the generator nor the handler in [main] sets the flag: a request
    leaves the flag as it found it, and so does every session. *)
Theorem flag_never_changes (B : Backends) (st : State)
        (situation : string) (tone : Tone) (now : Clock) (l : list Action) :
  gemini_over_limit (fst (submit B st situation tone now))
  = gemini_over_limit st /\
  gemini_over_limit (run B st l) = gemini_over_limit st.
Proof.
  split.
  - now destruct (submit_frame B st situation tone now) as (_ & F & _).
  - now destruct (run_frame B st l) as (_ & F).
Qed.

(** X14. A failure is not memoised.  On a miss, when none of the
    request's primary calls returns a text, the memo table is left
    exactly as it was. *)
Theorem failure_not_memoised (B : Backends) (st : State)
        (situation : string) (tone : Tone) (now : Clock) :
  cache_get (request_key situation tone) (cache st) = None ->
  (forall i text,
      i < primary_calls
            (calls_since st (fst (submit B st situation tone now))) ->
      generate_content B
        (calls st ++ repeat (primary_call situation tone) i)
        (gemini_prompt (fst (request_key situation tone))
                       (snd (request_key situation tone)))
        (generation_config (snd (request_key situation tone)))
      <> Return text) ->
  cache (fst (submit B st situation tone now)) = cache st.
Proof.
  intros M N.
  destruct (PyStr.truthy (PyStr.strip situation)) eqn:NB;
    [|now rewrite (submit_blank B _ _ _ _ NB)].
  rewrite submit_primary_calls in N by exact NB.
  destruct (submit_after_gemini B st situation tone now NB) as (-> & _).
  destruct (gemini_over_limit st) eqn:F;
    [now rewrite (try_gemini_skipped B st situation tone (or_introl F))|].
  destruct (gemini (models st)) eqn:G;
    [|now rewrite (try_gemini_skipped B st situation tone (or_intror G))].
  destruct (snd (generate_with_gemini B st
                   (fst (request_key situation tone))
                   (snd (request_key situation tone)))) as [v|e] eqn:R.
  - exfalso.
    rewrite (try_gemini_return B st situation tone v F G R) in N.
    cbn [fst] in N.
    destruct (generate_with_gemini_return B st _ _ _ R)
      as (_ & [(H & _)|(_ & K & Ri)]).
    + change (cache_get (request_key situation tone) (cache st) = Some v)
        in H. congruence.
    + apply (N 0 v).
      * rewrite K, length_app. simpl. lia.
      * simpl. rewrite app_nil_r. exact Ri.
  - rewrite (try_gemini_raise B st situation tone e F G R).
    destruct (generate_with_gemini_raise B st _ _ e R) as (_ & C & _).
    destruct (is_quota e); cbn [fst cache set_over_limit]; exact C.
Qed.

Lemma failure_not_memoised_witness :
  let B := constant_backends (Raise transient_error) (Return "Oops.") in
  cache (fst (submit B (initial_state true) "I was late" sincere noon))
  = cache (initial_state true).
Proof.
  intros B.
  apply (failure_not_memoised B (initial_state true) "I was late" sincere
                              noon); [reflexivity|].
  intros i text _. discriminate.
Defined.

(** X16. The fallback is called at most once per request, never for a
    request shown as generated by Gemini, and exactly once for a request
    shown as generated by GPT-2. *)
Theorem fallback_called_at_most_once (B : Backends) (st : State)
        (situation : string) (tone : Tone) (now : Clock) :
  secondary_calls (calls_since st (fst (submit B st situation tone now))) <= 1
  /\
  (forall apology,
      snd (submit B st situation tone now) = Shown "Gemini" apology ->
      secondary_calls
        (calls_since st (fst (submit B st situation tone now))) = 0) /\
  (forall apology,
      snd (submit B st situation tone now) = Shown "GPT-2" apology ->
      secondary_calls
        (calls_since st (fst (submit B st situation tone now))) = 1).
Proof.
  assert (S : forall k j,
             secondary_calls (repeat (primary_call situation tone) k
                              ++ repeat (secondary_call situation tone) j) = j).
  { intros k j. unfold secondary_calls. rewrite filter_app, length_app.
    assert (P : filter is_secondary (repeat (primary_call situation tone) k)
                = []) by (induction k; simpl; auto).
    rewrite P. simpl. induction j; simpl; auto. }
  destruct (PyStr.truthy (PyStr.strip situation)) eqn:NB.
  2:{ rewrite (submit_blank B _ _ _ _ NB). cbn [fst snd].
      rewrite calls_since_same. unfold secondary_calls. simpl.
      split; [lia|]. split; discriminate. }
  destruct (submit_shape B st situation tone now NB)
    as (st1 & a1 & m1 & st2 & a2 & m2 & E1 & E2 & E3).
  destruct (try_gemini_calls B st situation tone) as (k & _ & _ & C1 & _).
  rewrite E1 in C1. cbn [fst] in C1.
  pose proof (try_gemini_result B st situation tone) as R1.
  rewrite E1 in R1. cbn [fst snd] in R1.
  assert (C : calls (fst (submit B st situation tone now)) = calls st2)
    by (rewrite E3; destruct (PyStr.truthy a2); reflexivity).
  destruct (try_gpt2_cases B st1 situation tone a1 m1)
    as [(_ & _ & E)|(_ & E)]; rewrite E in E2; injection E2 as <- <- <-.
  - assert (X : calls_since st (fst (submit B st situation tone now))
                = repeat (primary_call situation tone) k
                  ++ repeat (secondary_call situation tone) 1).
    { apply calls_since_app. rewrite C. cbn [calls log_call].
      rewrite C1, <- app_assoc. reflexivity. }
    rewrite X, S. split; [lia|]. split; [|reflexivity].
    intros apology H. rewrite E3 in H.
    match type of H with context [if ?b then _ else _] => destruct b end;
      discriminate.
  - assert (X : calls_since st (fst (submit B st situation tone now))
                = repeat (primary_call situation tone) k
                  ++ repeat (secondary_call situation tone) 0).
    { apply calls_since_app. rewrite C, C1. cbn [repeat].
      now rewrite app_nil_r. }
    rewrite X, S. split; [lia|]. split; [reflexivity|].
    intros apology H. rewrite E3 in H.
    destruct (PyStr.truthy a1) eqn:T; cbn [snd] in H; [|discriminate].
    injection H as -> ->.
    destruct R1 as [(_ & _ & _ & _ & R1)|(R1 & _)]; [discriminate|].
    rewrite R1 in T. discriminate.
Qed.

Lemma fallback_called_at_most_once_witness :
  let B := constant_backends (Return "I am sorry.") (Return "Oops.") in
  secondary_calls
    (calls_since (initial_state true)
       (fst (submit B (initial_state true) "I was late" sincere noon))) = 0 /\
  secondary_calls
    (calls_since (initial_state false)
       (fst (submit B (initial_state false) "I was late" sincere noon))) = 1.
Proof.
  intros B. split.
  - apply (proj1 (proj2 (fallback_called_at_most_once
             B (initial_state true) "I was late" sincere noon))
             "I am sorry."). reflexivity.
  - apply (proj2 (proj2 (fallback_called_at_most_once
             B (initial_state false) "I was late" sincere noon))
             "Oops."). reflexivity.
Defined.

(** ** Sessions: calls, the memo table, and the page *)

Lemma primary_calls_app l1 l2 :
  primary_calls (l1 ++ l2) = primary_calls l1 + primary_calls l2.
Proof. unfold primary_calls. now rewrite filter_app, length_app. Qed.

Lemma secondary_calls_app l1 l2 :
  secondary_calls (l1 ++ l2) = secondary_calls l1 + secondary_calls l2.
Proof. unfold secondary_calls. now rewrite filter_app, length_app. Qed.

Lemma secondary_calls_repeat' situation tone k j :
  secondary_calls (repeat (primary_call situation tone) k
                   ++ repeat (secondary_call situation tone) j) = j.
Proof.
  rewrite secondary_calls_app. unfold secondary_calls.
  assert (P : filter is_secondary (repeat (primary_call situation tone) k)
              = []) by (induction k; simpl; auto).
  rewrite P. simpl. induction j; simpl; auto.
Qed.

(** X17. Calls add up over a session: however requests and feedback
    clicks are interleaved, a session with [n] button presses makes at
    most [MAX_RETRIES * n] primary calls and at most [n] fallback calls,
    and feedback clicks make none. *)
Theorem session_call_bounds (B : Backends) (st : State) (l : list Action) :
  primary_calls (calls_since st (run B st l)) <= MAX_RETRIES * requests l /\
  secondary_calls (calls_since st (run B st l)) <= requests l.
Proof.
  assert (H : exists new,
             calls (run B st l) = calls st ++ new /\
             primary_calls new <= MAX_RETRIES * requests l /\
             secondary_calls new <= requests l).
  { revert st. induction l as [|a l IH]; intros st.
    - exists []. simpl. rewrite app_nil_r. unfold primary_calls,
        secondary_calls, requests. simpl. repeat split; lia.
    - simpl run. destruct (IH (step B st a)) as (new & E & P & S).
      destruct a as [situation tone now|entry_id is_positive].
      + destruct (submit_calls B (script_start st) situation tone now)
          as (k & j & Hk & Hj & C & _).
        cbn [step] in *. rewrite C in E. cbn [calls script_start set_cache] in E.
        exists ((repeat (primary_call situation tone) k
                 ++ repeat (secondary_call situation tone) j) ++ new).
        split; [now rewrite E, <- !app_assoc|].
        rewrite primary_calls_app, secondary_calls_app.
        rewrite primary_calls_repeat by reflexivity.
        rewrite secondary_calls_repeat'.
        unfold requests in *. simpl. unfold MAX_RETRIES in *. lia.
      + simpl step in *. exists new. split; [exact E|].
        unfold requests in *. simpl. auto. }
  destruct H as (new & E & P & S).
  now rewrite (calls_since_app _ _ _ E).
Qed.

(** X18. Without a primary model (configuring the API failed, so the
    Gemini slot holds [None]) a session runs on the fallback alone: no
    primary call is ever made, the flag never changes, nothing is ever
    stored in the memo table (it is empty after every action), and every
    request with a situation makes exactly one fallback call. *)
Theorem fallback_only_mode (B : Backends) (st : State) (l : list Action) :
  gemini (models st) = false ->
  primary_calls (calls_since st (run B st l)) = 0 /\
  gemini_over_limit (run B st l) = gemini_over_limit st /\
  cache (run B st l) = match l with [] => cache st | _ :: _ => [] end /\
  (gpt2 (models st) = true ->
   forall situation tone now,
     PyStr.truthy (PyStr.strip situation) = true ->
     calls_since (run B st l)
                 (fst (submit B (run B st l) situation tone now))
     = [secondary_call situation tone]).
Proof.
  intros G.
  assert (Step : forall st' a,
             gemini (models st') = false ->
             cache (step B st' a) = [] /\
             exists j, calls (step B st' a)
                       = calls st' ++ repeat (match a with
                                              | Generate s t _ =>
                                                  secondary_call s t
                                              | Feedback _ _ =>
                                                  secondary_call "" formal
                                              end) j).
  { intros st' [situation tone now|entry_id is_positive] G'; cbn [step].
    - destruct (submit_calls B (script_start st') situation tone now)
        as (k & j & _ & _ & Cs & Z).
      destruct (Z (or_intror G')) as (-> & _). cbn [repeat app] in Cs.
      split; [|exists j; exact Cs].
      destruct (PyStr.truthy (PyStr.strip situation)) eqn:NB;
        [|now rewrite (submit_blank B _ _ _ _ NB)].
      destruct (submit_after_gemini B (script_start st') situation tone now NB)
        as (-> & _).
      now rewrite (try_gemini_skipped B (script_start st') situation tone
                     (or_intror G')).
    - split; [reflexivity|]. exists 0. simpl. now rewrite app_nil_r. }
  assert (H : exists new,
             calls (run B st l) = calls st ++ new /\ primary_calls new = 0 /\
             cache (run B st l)
             = match l with [] => cache st | _ :: _ => [] end).
  { revert st G. induction l as [|a l IH]; intros st G.
    - exists []. simpl. now rewrite app_nil_r.
    - simpl run.
      destruct (step_frame B st a) as (M & _).
      destruct (Step st a G) as (C0 & j & Cs).
      destruct (IH (step B st a)) as (new & E & P & C); [now rewrite M|].
      exists (repeat (match a with
                      | Generate s t _ => secondary_call s t
                      | Feedback _ _ => secondary_call "" formal
                      end) j ++ new).
      rewrite E, Cs, <- app_assoc. split; [reflexivity|]. split.
      + rewrite primary_calls_app, P.
        unfold primary_calls. clear.
        destruct a; induction j; simpl; auto.
      + rewrite C. destruct l; [exact C0|reflexivity]. }
  destruct H as (new & E & P & C).
  rewrite (calls_since_app _ _ _ E).
  destruct (run_frame B st l) as (M & F).
  split; [exact P|]. split; [exact F|]. split; [exact C|].
  intros G2 situation tone now NB.
  destruct (submit_calls B (run B st l) situation tone now)
    as (k & j & _ & _ & Cs & Z).
  destruct Z as (-> & J); [right; now rewrite M|].
  rewrite J in Cs by (rewrite ?M; auto).
  now rewrite (calls_since_app _ _ _ Cs).
Qed.

Lemma fallback_only_mode_witness :
  let B := constant_backends (Return "I am sorry.") (Return "Oops.") in
  let l := [Generate "I was late" sincere noon;
            Feedback "20240101120000000000" true] in
  primary_calls (calls_since (initial_state false)
                             (run B (initial_state false) l)) = 0 /\
  gemini_over_limit (run B (initial_state false) l)
  = gemini_over_limit (initial_state false) /\
  cache (run B (initial_state false) l) = [] /\
  (gpt2 (models (initial_state false)) = true ->
   forall situation tone now,
     PyStr.truthy (PyStr.strip situation) = true ->
     calls_since (run B (initial_state false) l)
       (fst (submit B (run B (initial_state false) l) situation tone now))
     = [secondary_call situation tone]).
Proof.
  intros B l. apply (fallback_only_mode B (initial_state false) l).
  reflexivity.
Defined.

(** *** The memo table over a session *)

Lemma cache_get_none c k : cache_get k c = None <-> ~ In k (map fst c).
Proof.
  induction c as [|[k' v] c IH]; simpl; [tauto|].
  destruct (key_eqb k' k) eqn:E.
  - apply key_eqb_eq in E. split; [discriminate|]. intros N.
    exfalso. auto.
  - rewrite IH. split; [|tauto]. intros N [X|X]; [|tauto].
    apply key_eqb_eq in X. congruence.
Qed.

Lemma cache_remove_keys k c x :
  In x (map fst (cache_remove k c)) -> In x (map fst c).
Proof.
  induction c as [|[k' v] c IH]; simpl; [tauto|].
  destruct (key_eqb k' k); simpl; [tauto|]. intros [X|X]; auto.
Qed.

Lemma cache_remove_ok k c :
  NoDup (map fst c) ->
  NoDup (map fst (cache_remove k c)) /\ ~ In k (map fst (cache_remove k c))
  /\ length (cache_remove k c) <= length c
  /\ (In k (map fst c) -> S (length (cache_remove k c)) = length c).
Proof.
  induction c as [|[k' v] c IH]; simpl; intros N.
  - repeat split; auto. tauto.
  - inversion N as [|? ? N1 N2]; subst.
    destruct (key_eqb k' k) eqn:E.
    + apply key_eqb_eq in E. subst k'. repeat split; auto.
    + destruct (IH N2) as (D & A & L & P). simpl. repeat split.
      * constructor; [|exact D]. intros X. apply N1.
        eapply cache_remove_keys; eauto.
      * intros [X|X]; [|tauto]. apply key_eqb_eq in X. congruence.
      * lia.
      * intros [X|X]; [apply key_eqb_eq in X; congruence|].
        rewrite (P X). reflexivity.
Qed.

Lemma in_removelast {A} (l : list A) x : In x (removelast l) -> In x l.
Proof.
  induction l as [|a l IH]; simpl; [tauto|].
  destruct l as [|b l]; [simpl; tauto|].
  intros [X|X]; [auto|]. right. apply IH. exact X.
Qed.

Lemma NoDup_removelast {A} (l : list A) : NoDup l -> NoDup (removelast l).
Proof.
  induction l as [|a l IH]; simpl; intros N; [constructor|].
  destruct l as [|b l]; [constructor|].
  inversion N as [|? ? N1 N2]; subst. constructor.
  - intros X. apply N1. now apply in_removelast.
  - now apply IH.
Qed.

Lemma map_removelast {A C} (f : A -> C) (l : list A) :
  map f (removelast l) = removelast (map f l).
Proof.
  induction l as [|a l IH]; simpl; [reflexivity|].
  destruct l as [|b l]; [reflexivity|].
  simpl in *. now rewrite IH.
Qed.

Lemma length_removelast {A} (l : list A) :
  l <> [] -> S (length (removelast l)) = length l.
Proof.
  induction l as [|a l IH]; [congruence|]. intros _.
  destruct l as [|b l]; [reflexivity|].
  change (S (S (length (removelast (b :: l)))) = S (length (b :: l))).
  rewrite IH; [reflexivity|discriminate].
Qed.

Lemma cache_get_some_in c k v : cache_get k c = Some v -> In k (map fst c).
Proof.
  induction c as [|[k' w] c IH]; simpl; [discriminate|].
  destruct (key_eqb k' k) eqn:E; [|auto].
  apply key_eqb_eq in E. auto.
Qed.

Lemma cache_touch_ok k v c :
  cache_get k c = Some v -> cache_ok c -> cache_ok (cache_touch k v c).
Proof.
  intros H (L & N). unfold cache_ok, cache_touch. simpl.
  destruct (cache_remove_ok k c N) as (D & A & _ & P).
  rewrite (P (cache_get_some_in _ _ _ H)).
  split; [exact L|]. constructor; assumption.
Qed.

Lemma cache_put_ok k v c :
  cache_get k c = None -> cache_ok c -> cache_ok (cache_put k v c).
Proof.
  intros H (L & N). apply cache_get_none in H.
  unfold cache_ok, cache_put.
  destruct (Nat.leb_spec CACHE_SIZE (length c)) as [F|F]; simpl.
  - split.
    + assert (c <> []) by (intros ->; unfold CACHE_SIZE in F; simpl in F; lia).
      rewrite length_removelast by assumption. exact L.
    + constructor.
      * rewrite map_removelast. intros X. apply H. now apply in_removelast.
      * rewrite map_removelast. now apply NoDup_removelast.
  - split; [lia|]. constructor; assumption.
Qed.

Lemma submit_cache_ok B st situation tone now :
  cache_ok (cache st) ->
  cache_ok (cache (fst (submit B st situation tone now))).
Proof.
  intros K.
  destruct (PyStr.truthy (PyStr.strip situation)) eqn:NB;
    [|now rewrite (submit_blank B _ _ _ _ NB)].
  destruct (submit_after_gemini B st situation tone now NB) as (-> & _).
  destruct (try_gemini_cache B st situation tone) as [->| ->]; [exact K|].
  unfold generate_with_gemini, generate_with_gemini_body.
  destruct (cache_get _ _) as [w|] eqn:H.
  - cbn [fst cache set_cache]. now apply cache_touch_ok.
  - destruct (gemini (models st)); [|exact K].
    pose proof (gemini_loop_frame B MAX_RETRIES 0 st
                  (gemini_prompt (fst (request_key situation tone))
                                 (snd (request_key situation tone)))
                  (snd (request_key situation tone))) as (_ & _ & C & _).
    destruct (gemini_loop B MAX_RETRIES 0 st _ _) as [st1 [w|e]];
      cbn [fst cache set_cache] in *; rewrite C; [|exact K].
    now apply cache_put_ok.
Qed.

(** X19. The memo table keeps its bound: starting from a table with at
    most [CACHE_SIZE] = 100 entries and one entry per key (the empty
    table of a fresh process in particular), after any session the table
    still has at most 100 entries and still holds each key once. *)
Theorem cache_bounded (B : Backends) (st : State) (l : list Action) :
  CACHE_SIZE = 100 /\
  cache_ok (cache (initial_state true)) /\
  (cache_ok (cache st) -> cache_ok (cache (run B st l))).
Proof.
  split; [reflexivity|]. split.
  - split; simpl; [lia|constructor].
  - revert st. induction l as [|a l IH]; intros st K; [exact K|].
    simpl run. apply IH.
    assert (E : cache_ok []) by (split; simpl; [lia|constructor]).
    destruct a as [situation tone now|entry_id is_positive]; cbn [step].
    + now apply submit_cache_ok.
    + exact E.
Qed.

Lemma cache_bounded_witness :
  let B := constant_backends (Return "I am sorry.") (Return "Oops.") in
  cache_ok (cache (run B (initial_state true)
                       [Generate "I was late" sincere noon;
                        Generate "I broke your phone" funny one_past_noon])).
Proof.
  intros B.
  apply (proj2 (proj2 (cache_bounded B (initial_state true)
                         [Generate "I was late" sincere noon;
                          Generate "I broke your phone" funny one_past_noon]))).
  split; simpl; [lia|constructor].
Defined.

(** *** The history section *)

(** X21. The page lists the history newest first.  After a shown request
    the history section is drawn and its first expander is the new
    apology: labelled with the timestamp, the situation as typed and the
    model, captioned with the capitalised tone, holding the shown text
    and the note that no feedback was given; the earlier entries follow
    in reverse order of insertion.  Nothing is drawn for an empty
    history. *)
Theorem newest_entry_displayed_first (B : Backends) (st : State)
        (situation : string) (tone : Tone) (now : Clock)
        (model_used apology : string) :
  history_section [] = None /\
  (snd (submit B st situation tone now) = Shown model_used apology ->
   history_section (history (fst (submit B st situation tone now)))
   = Some ({| label := now_timestamp now ++ " - " ++ situation
                       ++ " (" ++ model_used ++ ")";
              tone_caption := "Tone: " ++ capitalize (tone_label tone);
              written := apology;
              feedback_line := "No feedback submitted yet" |}
           :: map render_entry (rev (history st)))).
Proof.
  split; [reflexivity|]. intros S.
  rewrite (submit_shown_history B st situation tone now _ _ S).
  unfold history_section.
  destruct (history st ++ [new_entry situation tone now apology model_used])
    eqn:E; [destruct (history st); discriminate|].
  rewrite <- E, rev_app_distr. reflexivity.
Qed.

Lemma newest_entry_displayed_first_witness :
  let B := constant_backends (Return "I am sorry.") (Return "Oops.") in
  history_section
    (history (fst (submit B (initial_state true) " I was late" sincere noon)))
  = Some ({| label := "2024-01-01 12:00 -  I was late (Gemini)";
             tone_caption := "Tone: Sincere";
             written := "I am sorry.";
             feedback_line := "No feedback submitted yet" |}
          :: map render_entry (rev (history (initial_state true)))).
Proof.
  intros B.
  apply (proj2 (newest_entry_displayed_first
                  B (initial_state true) " I was late" sincere noon
                  "Gemini" "I am sorry.")).
  reflexivity.
Defined.

(** X22. A click on a feedback button shows up in the history.  After
    a shown request whose id no earlier entry carries, feedback to that
    id turns the feedback line of the first expander into thumbs-up
    (positive) or thumbs-down (negative); its label, caption and text,
    and all expanders after it, stay as they were. *)
Theorem feedback_shown_in_history (B : Backends) (st : State)
        (situation : string) (tone : Tone) (now : Clock)
        (model_used apology : string) (is_positive : bool) :
  snd (submit B st situation tone now) = Shown model_used apology ->
  (forall e, In e (history st) -> e_id e <> now_id now) ->
  history_section
    (history (handle_feedback (fst (submit B st situation tone now))
                              (now_id now) is_positive))
  = Some ({| label := now_timestamp now ++ " - " ++ situation
                      ++ " (" ++ model_used ++ ")";
             tone_caption := "Tone: " ++ capitalize (tone_label tone);
             written := apology;
             feedback_line := if is_positive
                              then "**Your Feedback:** 👍"
                              else "**Your Feedback:** 👎" |}
          :: map render_entry (rev (history st))).
Proof.
  intros S N. simpl.
  rewrite (submit_shown_history B st situation tone now _ _ S).
  rewrite handle_feedback_in_split by (auto; reflexivity).
  unfold history_section.
  destruct (history st ++ _) eqn:E; [destruct (history st); discriminate|].
  rewrite <- E, rev_app_distr. simpl.
  destruct is_positive; reflexivity.
Qed.

Lemma feedback_shown_in_history_witness :
  let B := constant_backends (Return "I am sorry.") (Return "Oops.") in
  history_section
    (history (handle_feedback
                (fst (submit B (initial_state true) "I was late" sincere noon))
                (now_id noon) false))
  = Some ({| label := "2024-01-01 12:00 - I was late (Gemini)";
             tone_caption := "Tone: Sincere";
             written := "I am sorry.";
             feedback_line := "**Your Feedback:** 👎" |}
          :: map render_entry (rev (history (initial_state true)))).
Proof.
  intros B.
  apply (feedback_shown_in_history
           B (initial_state true) "I was late" sincere noon
           "Gemini" "I am sorry." false).
  - reflexivity.
  - intros e [].
Defined.
